(** * Outbreak detection workflow: a shallow embedding

    Source: [src/swarm/workflows/outbreak_detection_workflow.py].

    The workflow walks a list of [WorkflowStep]s.  Every step is run against
    the report built so far (a Python dict), its outcome (again a dict) is
    recorded under the step's name, and the walk stops at the first outcome
    that carries a truthy ["error"] entry or at the first exception.

    Python values are embedded as the inductive [value]; a dict is an
    association list in insertion order, an exception is a value of [exn] and
    code that may raise lives in the error monad [res]. *)

From Stdlib Require Import List String Ascii Bool ZArith QArith Lia.
Import ListNotations.
Local Open Scope string_scope.
Local Open Scope list_scope.

Set Implicit Arguments.
Set Warnings "-register-all".

(** ** Python values *)

Module Py.

(** The values that flow through the workflow: what a report, a trigger
    payload or an agent attribute can hold.  Non-integral numbers occur in
    the source only as belief scores, which are kept apart (see [Agent]). *)
Inductive value : Type :=
| VNone
| VBool (b : bool)
| VInt (z : Z)
| VStr (s : string)
| VList (l : list value)
| VDict (d : list (string * value)).

(** A dict with string keys, in insertion order. *)
Definition pydict : Type := list (string * value).

(** Exceptions: every class below derives from [Exception], so the
    handlers [except Exception] of the source catch all of them.  The
    exceptions those handlers do not catch are the matter of the module
    [Cancellable] further down. *)
Inductive exn_class : Type :=
| AttributeError | TypeError | ValueError | IndexError | RuntimeError.

Record exn : Type := mkExn { exn_cls : exn_class; exn_msg : string }.

(** [str(e)] *)
Definition str (e : exn) : string := exn_msg e.

(** The error monad: a computation returns or raises. *)
Inductive res (A : Type) : Type :=
| Ok (a : A)
| Raise (e : exn).
Arguments Raise {A} e.

Definition bind {A B : Type} (c : res A) (k : A -> res B) : res B :=
  match c with
  | Ok a => k a
  | Raise e => Raise e
  end.

Definition raises {A : Type} (c : res A) : bool :=
  match c with Ok _ => false | Raise _ => true end.

(** Truth value of an object, as [if x:] and [not x] compute it. *)
Definition truthy (v : value) : bool :=
  match v with
  | VNone => false
  | VBool b => b
  | VInt z => negb (Z.eqb z 0)
  | VStr s => negb (String.eqb s "")
  | VList l => match l with [] => false | _ :: _ => true end
  | VDict d => match d with [] => false | _ :: _ => true end
  end.

(** [needle in hay] on two strings: substring test. *)
Fixpoint str_contains (needle hay : string) : bool :=
  if String.prefix needle hay then true
  else match hay with
       | EmptyString => false
       | String _ hay' => str_contains needle hay'
       end.

(** [v == s] for a string literal [s]. *)
Definition eq_str (v : value) (s : string) : bool :=
  match v with
  | VStr t => String.eqb t s
  | _ => false
  end.

(** *** Dict primitives *)

Fixpoint lookup (k : string) (d : pydict) : option value :=
  match d with
  | [] => None
  | (k', v) :: d' => if String.eqb k k' then Some v else lookup k d'
  end.

Definition has_key (k : string) (d : pydict) : bool :=
  match lookup k d with Some _ => true | None => false end.

(** [d.get(k, default)] *)
Definition dict_get (d : pydict) (k : string) (default : value) : value :=
  match lookup k d with Some v => v | None => default end.

(** [d[k] = v]: an existing key keeps its position, a new one goes last. *)
Fixpoint dict_set (d : pydict) (k : string) (v : value) : pydict :=
  match d with
  | [] => [(k, v)]
  | (k', v') :: d' =>
      if String.eqb k k' then (k, v) :: d' else (k', v') :: dict_set d' k v
  end.

Definition keys (d : pydict) : list string := map fst d.

(** *** The same operations on an arbitrary object *)

(** [type(v).__name__] *)
Definition type_name (v : value) : string :=
  match v with
  | VNone => "NoneType"
  | VBool _ => "bool"
  | VInt _ => "int"
  | VStr _ => "str"
  | VList _ => "list"
  | VDict _ => "dict"
  end.

Definition no_attribute (v : value) (name : string) : exn :=
  mkExn AttributeError
    ("'" ++ type_name v ++ "' object has no attribute '" ++ name ++ "'").

(** [v.get(k, default)]: only a dict has the method. *)
Definition py_get (v : value) (k : string) (default : value) : res value :=
  match v with
  | VDict d => Ok (dict_get d k default)
  | _ => Raise (no_attribute v "get")
  end.

(** [v.values()] *)
Definition py_values (v : value) : res (list value) :=
  match v with
  | VDict d => Ok (map snd d)
  | _ => Raise (no_attribute v "values")
  end.

(** [k in v] for a string [k]: key of a dict, substring of a string,
    element of a list; anything else is not a container. *)
Definition py_in (k : string) (v : value) : res bool :=
  match v with
  | VDict d => Ok (has_key k d)
  | VStr s => Ok (str_contains k s)
  | VList l => Ok (existsb (fun x => eq_str x k) l)
  | _ => Raise (mkExn TypeError
                  ("argument of type '" ++ type_name v ++ "' is not iterable"))
  end.

End Py.
Export Py.

Declare Scope res_scope.
Delimit Scope res_scope with res.
Notation "x <- c ;; k" := (bind c (fun x => k))
  (at level 61, c at next level, right associativity) : res_scope.
Local Open Scope res_scope.

(** ** The data model *)

(** A belief score as the interpreter holds it: a float or an int.  Such
    numbers are only read and compared here, never computed with, and their
    comparison is exact; so a finite one is kept as the rational it denotes,
    and the floats add the two infinities and NaN. *)
Inductive belief : Type :=
| Finite (q : Q)
| PosInf
| NegInf
| NaN.

(** [a > b]: false as soon as one side is NaN. *)
Definition belief_gt (a b : belief) : bool :=
  match a, b with
  | NaN, _ => false
  | _, NaN => false
  | PosInf, PosInf => false
  | PosInf, _ => true
  | NegInf, _ => false
  | Finite _, PosInf => false
  | Finite _, NegInf => true
  | Finite x, Finite y => negb (Qle_bool x y)
  end.

(** An agent is an opaque object of the orchestrator.  The workflow reads two
    of its attributes; reading an attribute of an arbitrary object yields a
    value or raises, hence [res]. *)
Record Agent : Type := mkAgent {
  outbreak_belief : res belief;
  risk_level : res value
}.

(** [orchestrator.agents]: a dict from agent id to agent, in insertion order. *)
Record Orchestrator : Type := mkOrchestrator {
  agents : list (string * Agent)
}.

(** [@dataclass class WorkflowStep] *)
Record WorkflowStep : Type := mkStep {
  name : string;
  description : string;
  agent_action : string;
  parallel : bool;
  timeout : Z;
  condition : option string;
  depends_on : option (list string);
  agent_selector : option string
}.

(** An instance of [OutbreakDetectionWorkflow]: [orchestrator] is [None] or
    an orchestrator object (a plain object, which is truthy). *)
Record OutbreakDetectionWorkflow : Type := mkWorkflow {
  orchestrator : option Orchestrator;
  steps : list WorkflowStep
}.

(** Class attribute [name]. *)
Definition workflow_name : string := "outbreak_detection".

(** The six steps of [_define_steps], in their order. *)
Definition local_analysis : WorkflowStep :=
  mkStep "local_analysis" "Each agent analyzes its local data"
    "analyze_symptoms" true 30 None None None.

Definition neighbor_consultation : WorkflowStep :=
  mkStep "neighbor_consultation" "Agents query neighbors if anomaly detected"
    "query_neighbors" true 60 (Some "anomaly_detected == true") None None.

Definition collective_reasoning : WorkflowStep :=
  mkStep "collective_reasoning" "Agents synthesize neighbor responses"
    "reason_about_collective_evidence" true 45 None
    (Some ["neighbor_consultation"]) None.

Definition consensus_proposal : WorkflowStep :=
  mkStep "consensus_proposal" "Agent with strongest evidence proposes action"
    "propose_consensus" false 30 None None (Some "max_outbreak_belief").

Definition voting : WorkflowStep :=
  mkStep "voting" "All agents vote on proposal"
    "vote" true 60 None (Some ["consensus_proposal"]) None.

Definition quantum_escalation : WorkflowStep :=
  mkStep "quantum_escalation" "Escalate to quantum if consensus reached"
    "escalate_to_quantum" false 120 (Some "consensus_reached == true") None
    (Some "proposer").

Definition _define_steps : list WorkflowStep :=
  [ local_analysis; neighbor_consultation; collective_reasoning;
    consensus_proposal; voting; quantum_escalation ].

(** [__init__] *)
Definition init (orch : option Orchestrator) : OutbreakDetectionWorkflow :=
  mkWorkflow orch _define_steps.

(** ** Agent selection *)

(** [step.agent_selector == s] *)
Definition selector_is (step : WorkflowStep) (s : string) : bool :=
  match agent_selector step with
  | Some t => String.eqb t s
  | None => false
  end.

(** The scan of [max(items, key=...)] after its first item: the key of each
    further item is read in turn and replaces the running maximum only when
    strictly greater, so the first of several maximal items wins. *)
Fixpoint max_scan (best : string * Agent) (best_key : belief)
    (items : list (string * Agent)) : res (string * Agent) :=
  match items with
  | [] => Ok best
  | x :: rest =>
      k <- outbreak_belief (snd x) ;;
      if belief_gt k best_key then max_scan x k rest
      else max_scan best best_key rest
  end.

(** [max(all_agents.items(), key=lambda x: x[1].outbreak_belief)] *)
Definition max_by_belief (items : list (string * Agent))
    : res (string * Agent) :=
  match items with
  | [] => Raise (mkExn ValueError "max() arg is an empty sequence")
  | x :: rest => k <- outbreak_belief (snd x) ;; max_scan x k rest
  end.

Definition _select_agents (self : OutbreakDetectionWorkflow)
    (step : WorkflowStep) : res (list (string * Agent)) :=
  match orchestrator self with
  | None => Ok []
  | Some orch =>
      let all_agents := agents orch in
      if selector_is step "max_outbreak_belief" then
        max_agent <- max_by_belief all_agents ;;
        Ok [(fst max_agent, snd max_agent)]
      else if selector_is step "proposer" then
        match all_agents with
        | [] => Raise (mkExn IndexError "list index out of range")
        | (k, a) :: _ => Ok [(k, a)]
        end
      else Ok all_agents
  end.

(** ** Actions and conditions *)

Definition _execute_agent_action (agent : Agent) (action : string)
    (context : pydict) : res pydict :=
  if String.eqb action "analyze_symptoms" then
    r <- risk_level agent ;;
    Ok [("action", VStr action); ("risk_level", r)]
  else if String.eqb action "query_neighbors" then
    Ok [("action", VStr action); ("neighbors_queried", VBool true)]
  else if String.eqb action "propose_consensus" then
    Ok [("action", VStr action); ("proposal_made", VBool true)]
  else if String.eqb action "vote" then
    Ok [("action", VStr action); ("vote", VStr "approve")]
  else if String.eqb action "escalate_to_quantum" then
    Ok [("action", VStr action); ("escalated", VBool true)]
  else
    Ok [("action", VStr action); ("status", VStr "completed")].

(** [result.get("risk_level") in ["high", "critical"]] *)
Definition reports_risk (result : value) : res bool :=
  r <- py_get result "risk_level" VNone ;;
  Ok (eq_str r "high" || eq_str r "critical").

(** [for result in parallel_results.values(): if ...: return True] followed
    by [return False]. *)
Fixpoint any_risk (results : list value) : res bool :=
  match results with
  | [] => Ok false
  | result :: rest =>
      b <- reports_risk result ;;
      if b then Ok true else any_risk rest
  end.

Definition _evaluate_condition (cond : string) (context : pydict)
    : res value :=
  if str_contains "anomaly_detected == true" cond then
    let step_results := dict_get context "step_results" (VDict []) in
    local_analysis <- py_get step_results "local_analysis" (VDict []) ;;
    parallel_results <- py_get local_analysis "parallel_results" (VDict []) ;;
    vs <- py_values parallel_results ;;
    b <- any_risk vs ;;
    Ok (VBool b)
  else if str_contains "consensus_reached == true" cond then
    let step_results := dict_get context "step_results" (VDict []) in
    voting <- py_get step_results "voting" (VDict []) ;;
    py_get voting "consensus_reached" (VBool false)
  else Ok (VBool true).

Definition _should_continue (step : WorkflowStep) (result : pydict) : bool :=
  if truthy (dict_get result "error" VNone) then false
  else if truthy (dict_get result "skipped" VNone) then true
  else true.

(** ** Executing one step *)

(** Truth value of a list or of a dict: it has an element. *)
Definition nonempty {A : Type} (l : list A) : bool :=
  match l with [] => false | _ :: _ => true end.

Definition skipped (reason : string) : pydict :=
  [("skipped", VBool true); ("reason", VStr reason)].

(** [if step.condition and not self._evaluate_condition(...)]: [true] when
    the step is to be skipped.  [None] and the empty string are falsy, and
    then the evaluator is not called. *)
Definition condition_fails (step : WorkflowStep) (context : pydict)
    : res bool :=
  match condition step with
  | None => Ok false
  | Some c =>
      if truthy (VStr c) then
        v <- _evaluate_condition c context ;;
        Ok (negb (truthy v))
      else Ok false
  end.

(** [for dep in step.depends_on: if dep not in context.get("step_results",
    {}): return ...]: the first dependency that is not recorded, if any. *)
Fixpoint missing_dependency (deps : list string) (context : pydict)
    : res (option string) :=
  match deps with
  | [] => Ok None
  | dep :: rest =>
      present <- py_in dep (dict_get context "step_results" (VDict [])) ;;
      if present then missing_dependency rest context else Ok (Some dep)
  end.

(** One round of the loop over [agents.items()] of a parallel step: the
    entry recorded for one agent. *)
Definition agent_entry (agent : Agent) (action : string) (context : pydict)
    : value :=
  match _execute_agent_action agent action context with
  | Ok result => VDict result
  | Raise e => VDict [("error", VStr (str e))]
  end.

(** The loop itself, [results[agent_id] = ...] for each agent in turn. *)
Fixpoint parallel_loop (ags : list (string * Agent)) (action : string)
    (context : pydict) (results : pydict) : pydict :=
  match ags with
  | [] => results
  | (agent_id, agent) :: rest =>
      parallel_loop rest action context
        (dict_set results agent_id (agent_entry agent action context))
  end.

(** The part of [_execute_step] after both checks: select, then execute.
    [if agents:] with [next(iter(agents.items()))] is the match on the first
    item of the selection. *)
Definition run_action (self : OutbreakDetectionWorkflow) (step : WorkflowStep)
    (context : pydict) : res pydict :=
  ags <- _select_agents self step ;;
  if parallel step then
    Ok [("parallel_results",
         VDict (parallel_loop ags (agent_action step) context []))]
  else
    match ags with
    | (agent_id, agent) :: _ =>
        _execute_agent_action agent (agent_action step) context
    | [] => Ok [("error", VStr "No agent selected")]
    end.

Definition _execute_step (self : OutbreakDetectionWorkflow)
    (step : WorkflowStep) (context : pydict) : res pydict :=
  skip <- condition_fails step context ;;
  if skip then
    Ok (skipped ("Condition not met: " ++
                 match condition step with Some c => c | None => "" end))
  else
    missing <- match depends_on step with
               | Some deps =>
                   if nonempty deps then missing_dependency deps context
                   else Ok None
               | None => Ok None
               end ;;
    match missing with
    | Some dep => Ok (skipped ("Dependency not met: " ++ dep))
    | None => run_action self step context
    end.

(** ** The run *)

(** The report as a step sees it.  The loop of [execute] only ever writes
    into [results["step_results"]], so the state carried through the loop is
    that inner dict and the report is rebuilt around it. *)
Definition make_results (trigger_data : value) (step_results : pydict)
    : pydict :=
  [("workflow", VStr workflow_name);
   ("trigger_data", trigger_data);
   ("step_results", VDict step_results)].

(** The [for step in self.steps] loop with its [try]/[except] and both
    [break]s; returns the final [results["step_results"]]. *)
Fixpoint run_steps (self : OutbreakDetectionWorkflow) (todo : list WorkflowStep)
    (trigger_data : value) (step_results : pydict) : pydict :=
  match todo with
  | [] => step_results
  | step :: rest =>
      match _execute_step self step (make_results trigger_data step_results) with
      | Ok step_result =>
          let step_results' :=
            dict_set step_results (name step) (VDict step_result) in
          if _should_continue step step_result
          then run_steps self rest trigger_data step_results'
          else step_results'
      | Raise e =>
          dict_set step_results (name step) (VDict [("error", VStr (str e))])
      end
  end.

Definition execute (self : OutbreakDetectionWorkflow) (trigger_data : value)
    : res pydict :=
  match orchestrator self with
  | None => Ok [("error", VStr "Orchestrator not configured")]
  | Some _ =>
      Ok (make_results trigger_data
            (run_steps self (steps self) trigger_data []))
  end.

(** The outcome recorded for a step name in the report of a run, if any. *)
Definition recorded (self : OutbreakDetectionWorkflow) (trigger_data : value)
    (step_name : string) : option value :=
  match execute self trigger_data with
  | Ok report =>
      match lookup "step_results" report with
      | Some (VDict sr) => lookup step_name sr
      | _ => None
      end
  | Raise _ => None
  end.

(** ** Sample data *)

Definition agent_low : Agent :=
  mkAgent (Ok (Finite (1 # 5))) (Ok (VStr "low")).
Definition agent_critical : Agent :=
  mkAgent (Ok (Finite (9 # 10))) (Ok (VStr "critical")).
Definition agent_broken : Agent :=
  mkAgent (Ok (Finite (1 # 2))) (Raise (mkExn RuntimeError "sensor offline")).

Definition calm_swarm : Orchestrator :=
  mkOrchestrator [("pune", agent_low); ("nashik", agent_low)].
Definition alarmed_swarm : Orchestrator :=
  mkOrchestrator [("pune", agent_low); ("nashik", agent_critical)].
Definition faulty_swarm : Orchestrator :=
  mkOrchestrator
    [("pune", agent_low); ("nashik", agent_broken); ("nagpur", agent_critical)].
Definition empty_swarm : Orchestrator := mkOrchestrator [].

Definition sample_trigger : value := VDict [("source", VStr "clinic")].

(** ** Exceptions that [except Exception] does not catch

    The two handlers of the source are [except Exception].  An exception
    whose class derives from [BaseException] only ([asyncio.CancelledError],
    [KeyboardInterrupt], [SystemExit], [GeneratorExit]) passes through both.
    The workflow itself raises none; one can only come out of reading an
    attribute of an agent.  The module below is the workflow again, over
    agents whose attributes may do so: it differs from the definitions above
    in the third outcome [Escaped], which both handlers let through, and
    coincides with them on agents that raise nothing but [Exception]s
    ([cancellable_execute_agrees]). *)

Module Cancellable.

Inductive base_class : Type :=
| CancelledError | KeyboardInterrupt | SystemExit | GeneratorExit.

Record base_exn : Type := mkBase { base_cls : base_class; base_msg : string }.

(** A computation returns, raises an [Exception], or raises an exception
    that is not one. *)
Inductive outcome (A : Type) : Type :=
| Returned (a : A)
| Raised (e : exn)
| Escaped (b : base_exn).
Arguments Raised {A} e.
Arguments Escaped {A} b.

Definition bind {A B : Type} (c : outcome A) (k : A -> outcome B)
    : outcome B :=
  match c with
  | Returned a => k a
  | Raised e => Raised e
  | Escaped b => Escaped b
  end.

(** Code that does not touch an agent keeps its two outcomes. *)
Definition of_res {A : Type} (c : res A) : outcome A :=
  match c with
  | Ok a => Returned a
  | Raise e => Raised e
  end.

Notation "x <~ c ;; k" := (bind c (fun x => k))
  (at level 61, c at next level, right associativity).

Record Agent : Type := mkAgent {
  outbreak_belief : outcome belief;
  risk_level : outcome value
}.

Record Orchestrator : Type := mkOrchestrator {
  agents : list (string * Agent)
}.

Record OutbreakDetectionWorkflow : Type := mkWorkflow {
  orchestrator : option Orchestrator;
  steps : list WorkflowStep
}.

Definition init (orch : option Orchestrator) : OutbreakDetectionWorkflow :=
  mkWorkflow orch _define_steps.

Fixpoint max_scan (best : string * Agent) (best_key : belief)
    (items : list (string * Agent)) : outcome (string * Agent) :=
  match items with
  | [] => Returned best
  | x :: rest =>
      k <~ outbreak_belief (snd x) ;;
      if belief_gt k best_key then max_scan x k rest
      else max_scan best best_key rest
  end.

Definition max_by_belief (items : list (string * Agent))
    : outcome (string * Agent) :=
  match items with
  | [] => Raised (mkExn ValueError "max() arg is an empty sequence")
  | x :: rest => k <~ outbreak_belief (snd x) ;; max_scan x k rest
  end.

Definition _select_agents (self : OutbreakDetectionWorkflow)
    (step : WorkflowStep) : outcome (list (string * Agent)) :=
  match orchestrator self with
  | None => Returned []
  | Some orch =>
      let all_agents := agents orch in
      if selector_is step "max_outbreak_belief" then
        max_agent <~ max_by_belief all_agents ;;
        Returned [(fst max_agent, snd max_agent)]
      else if selector_is step "proposer" then
        match all_agents with
        | [] => Raised (mkExn IndexError "list index out of range")
        | (k, a) :: _ => Returned [(k, a)]
        end
      else Returned all_agents
  end.

Definition _execute_agent_action (agent : Agent) (action : string)
    (context : pydict) : outcome pydict :=
  if String.eqb action "analyze_symptoms" then
    r <~ risk_level agent ;;
    Returned [("action", VStr action); ("risk_level", r)]
  else if String.eqb action "query_neighbors" then
    Returned [("action", VStr action); ("neighbors_queried", VBool true)]
  else if String.eqb action "propose_consensus" then
    Returned [("action", VStr action); ("proposal_made", VBool true)]
  else if String.eqb action "vote" then
    Returned [("action", VStr action); ("vote", VStr "approve")]
  else if String.eqb action "escalate_to_quantum" then
    Returned [("action", VStr action); ("escalated", VBool true)]
  else
    Returned [("action", VStr action); ("status", VStr "completed")].

(** One round of the loop of a parallel step, with its
    [except Exception as e]. *)
Definition agent_entry (agent : Agent) (action : string) (context : pydict)
    : outcome value :=
  match _execute_agent_action agent action context with
  | Returned result => Returned (VDict result)
  | Raised e => Returned (VDict [("error", VStr (str e))])
  | Escaped b => Escaped b
  end.

Fixpoint parallel_loop (ags : list (string * Agent)) (action : string)
    (context : pydict) (results : pydict) : outcome pydict :=
  match ags with
  | [] => Returned results
  | (agent_id, agent) :: rest =>
      entry <~ agent_entry agent action context ;;
      parallel_loop rest action context (dict_set results agent_id entry)
  end.

Definition run_action (self : OutbreakDetectionWorkflow) (step : WorkflowStep)
    (context : pydict) : outcome pydict :=
  ags <~ _select_agents self step ;;
  if parallel step then
    results <~ parallel_loop ags (agent_action step) context [] ;;
    Returned [("parallel_results", VDict results)]
  else
    match ags with
    | (agent_id, agent) :: _ =>
        _execute_agent_action agent (agent_action step) context
    | [] => Returned [("error", VStr "No agent selected")]
    end.

Definition _execute_step (self : OutbreakDetectionWorkflow)
    (step : WorkflowStep) (context : pydict) : outcome pydict :=
  skip <~ of_res (condition_fails step context) ;;
  if skip then
    Returned (skipped ("Condition not met: " ++
                       match condition step with Some c => c | None => "" end))
  else
    missing <~ of_res (match depends_on step with
                       | Some deps =>
                           if nonempty deps
                           then missing_dependency deps context
                           else Ok None
                       | None => Ok None
                       end) ;;
    match missing with
    | Some dep => Returned (skipped ("Dependency not met: " ++ dep))
    | None => run_action self step context
    end.

(** The loop of [execute] with its [except Exception as e]. *)
Fixpoint run_steps (self : OutbreakDetectionWorkflow) (todo : list WorkflowStep)
    (trigger_data : value) (step_results : pydict) : outcome pydict :=
  match todo with
  | [] => Returned step_results
  | step :: rest =>
      match _execute_step self step (make_results trigger_data step_results) with
      | Returned step_result =>
          let step_results' :=
            dict_set step_results (name step) (VDict step_result) in
          if _should_continue step step_result
          then run_steps self rest trigger_data step_results'
          else Returned step_results'
      | Raised e =>
          Returned
            (dict_set step_results (name step)
               (VDict [("error", VStr (str e))]))
      | Escaped b => Escaped b
      end
  end.

Definition execute (self : OutbreakDetectionWorkflow) (trigger_data : value)
    : outcome pydict :=
  match orchestrator self with
  | None => Returned [("error", VStr "Orchestrator not configured")]
  | Some _ =>
      step_results <~ run_steps self (steps self) trigger_data [] ;;
      Returned (make_results trigger_data step_results)
  end.

End Cancellable.

(** An agent, a registry and a workflow of the first kind, seen as ones of
    the second kind that never let an exception escape. *)
Definition cancellable_agent (agent : Agent) : Cancellable.Agent :=
  Cancellable.mkAgent (Cancellable.of_res (outbreak_belief agent))
    (Cancellable.of_res (risk_level agent)).

Definition cancellable_agents (ags : list (string * Agent))
    : list (string * Cancellable.Agent) :=
  map (fun x => (fst x, cancellable_agent (snd x))) ags.

Definition cancellable_workflow (self : OutbreakDetectionWorkflow)
    : Cancellable.OutbreakDetectionWorkflow :=
  Cancellable.mkWorkflow
    (match orchestrator self with
     | Some orch =>
         Some (Cancellable.mkOrchestrator (cancellable_agents (agents orch)))
     | None => None
     end)
    (steps self).




(** ** Vocabulary of the properties *)


(** An outcome or a per-agent entry that is an error: a dict with an
    ["error"] key. *)
Definition is_error (v : value) : bool :=
  match v with
  | VDict d => has_key "error" d
  | _ => false
  end.

(** A skip: a dict with a ["skipped"] key. *)
Definition is_skip (v : value) : bool :=
  match v with
  | VDict d => has_key "skipped" d
  | _ => false
  end.

(** A per-agent entry that carries the result of an action. *)
Definition is_normal (v : value) : bool :=
  match v with
  | VDict d => has_key "action" d && negb (has_key "error" d)
  | _ => false
  end.

(** The first name of [deps] that is not a key of the step results. *)
Definition first_missing (deps : list string) (sr : pydict) : option string :=
  find (fun dep => negb (has_key dep sr)) deps.

(** A step with both a precondition and a dependency, run before anything
    is recorded. *)
Definition escalation_after_voting : WorkflowStep :=
  mkStep "quantum_escalation" "Escalate to quantum if consensus reached"
    "escalate_to_quantum" false 120 (Some "consensus_reached == true")
    (Some ["voting"]) (Some "proposer").

(** The two predicate strings the evaluator looks for. *)
Definition anomaly_predicate : string := "anomaly_detected == true".
Definition consensus_predicate : string := "consensus_reached == true".

(** The same step under another precondition. *)
Definition with_condition (step : WorkflowStep) (c : option string)
    : WorkflowStep :=
  mkStep (name step) (description step) (agent_action step) (parallel step)
    (timeout step) c (depends_on step) (agent_selector step).

(** A per-agent entry that reports a risk level of "high" or "critical". *)
Definition reports_high_risk (entry : value) : bool :=
  match entry with
  | VDict e =>
      eq_str (dict_get e "risk_level" VNone) "high" ||
      eq_str (dict_get e "risk_level" VNone) "critical"
  | _ => false
  end.

(** The entries a parallel step records for a set of agents; the action
    never reads the report it is handed, so any report does. *)
Definition entries_for (ags : list (string * Agent)) (action : string)
    : pydict :=
  parallel_loop ags action [] [].

Definition parallel_outcome (ags : list (string * Agent)) (action : string)
    : value :=
  VDict [("parallel_results", VDict (entries_for ags action))].

(** What every agent answers to the ["vote"] action. *)
Definition vote_payload : value :=
  VDict [("action", VStr "vote"); ("vote", VStr "approve")].

(** The same step under another timeout. *)
Definition with_timeout (step : WorkflowStep) (t : Z) : WorkflowStep :=
  mkStep (name step) (description step) (agent_action step) (parallel step)
    t (condition step) (depends_on step) (agent_selector step).

(** Reading C9 against a run in which the invocation on agent [id] takes
    [elapsed id] seconds: every selected agent whose invocation outlasts the
    step's timeout shows as an error, in its own entry for a parallel step
    and as the outcome of a single step. *)
Definition timeout_enforced (elapsed : string -> Z)
    (self : OutbreakDetectionWorkflow) (step : WorkflowStep)
    (context : pydict) : Prop :=
  forall ags id agent,
    _select_agents self step = Ok ags ->
    In (id, agent) ags ->
    (timeout step < elapsed id)%Z ->
    match _execute_step self step context with
    | Ok outcome =>
        if parallel step then
          exists entries entry,
            lookup "parallel_results" outcome = Some (VDict entries) /\
            lookup id entries = Some entry /\ is_error entry = true
        else is_error (VDict outcome) = true
    | Raise _ => parallel step = false
    end.

(** A result of [_execute_agent_action] carries none of the keys the
    executor itself gives a meaning to. *)
Definition plain_result (r : pydict) : Prop :=
  lookup "error" r = None /\ lookup "skipped" r = None /\
  lookup "parallel_results" r = None /\ lookup "consensus_reached" r = None.

(** What [_execute_step] can return. *)
Inductive outcome_shape : pydict -> Prop :=
| shape_skipped reason : outcome_shape (skipped reason)
| shape_parallel entries :
    outcome_shape [("parallel_results", VDict entries)]
| shape_single r : plain_result r -> outcome_shape r
| shape_no_agent : outcome_shape [("error", VStr "No agent selected")].

(** Every dependency of the step is a recorded name. *)
Definition dependencies_recorded (step : WorkflowStep) (sr : pydict) : Prop :=
  forall deps, depends_on step = Some deps ->
  forall dep, In dep deps -> lookup dep sr <> None.

(** The step results of the built-in workflow in closed form, for a
    registry [ags]; [builtin_walk] proves the walk equal to it. *)
Definition before_proposal (ags : list (string * Agent)) : pydict :=
  [("local_analysis", parallel_outcome ags "analyze_symptoms");
   ("neighbor_consultation",
    if existsb (fun e => reports_high_risk (snd e))
         (entries_for ags "analyze_symptoms")
    then parallel_outcome ags "query_neighbors"
    else VDict (skipped "Condition not met: anomaly_detected == true"));
   ("collective_reasoning",
    parallel_outcome ags "reason_about_collective_evidence")].

Definition after_proposal (ags : list (string * Agent)) : pydict :=
  [("consensus_proposal",
    VDict [("action", VStr "propose_consensus");
           ("proposal_made", VBool true)]);
   ("voting", parallel_outcome ags "vote");
   ("quantum_escalation",
    VDict (skipped "Condition not met: consensus_reached == true"))].

Definition builtin_step_results (ags : list (string * Agent)) : pydict :=
  before_proposal ags ++
  match max_by_belief ags with
  | Ok _ => after_proposal ags
  | Raise e => [("consensus_proposal", VDict [("error", VStr (str e))])]
  end.



Definition agent_without_belief : Agent :=
  mkAgent (Raise (mkExn AttributeError "no belief")) (Ok (VStr "low")).

Definition unreadable_swarm : Orchestrator :=
  mkOrchestrator
    [("pune", agent_critical); ("nashik", agent_without_belief);
     ("nagpur", agent_low)].

(** A two-step workflow that is not the built-in one. *)
Definition short_workflow : OutbreakDetectionWorkflow :=
  mkWorkflow (Some calm_swarm) [local_analysis; escalation_after_voting].

(** An agent whose risk level reads as "high" or "critical". *)
Definition high_risk_agent (agent : Agent) : bool :=
  match risk_level agent with
  | Ok v => eq_str v "high" || eq_str v "critical"
  | Raise _ => false
  end.

(** Step results in which every recorded outcome is a dict without a
    top-level ["consensus_reached"] key. *)
Definition no_consensus_recorded (sr : pydict) : Prop :=
  forall k v, lookup k sr = Some v ->
  exists d, v = VDict d /\ lookup "consensus_reached" d = None.

(** The outcome recorded for a step that raised. *)
Definition raised_outcome (d : pydict) : Prop :=
  exists msg, d = [("error", VStr msg)].

(** ** Hidden sources of the causality analysis

    Source: [src/quantum/circuits/causality.py],
    [CausalityAnalysisCircuit._identify_hidden_sources]. *)

(** The two entries of a causal link that the function reads; village
    names are strings. *)
Record CausalLink : Type := mkLink {
  from_village : string;
  to_village : string
}.

(** [connection_count]: a dict from village name to a count, in insertion
    order. *)
Definition counts : Type := list (string * nat).

(** [connection_count.get(v, 0)] *)
Fixpoint count_get (cc : counts) (v : string) : nat :=
  match cc with
  | [] => 0
  | (v', c) :: cc' => if String.eqb v v' then c else count_get cc' v
  end.

(** [connection_count[v] = c] *)
Fixpoint count_set (cc : counts) (v : string) (c : nat) : counts :=
  match cc with
  | [] => [(v, c)]
  | (v', c') :: cc' =>
      if String.eqb v v' then (v, c) :: cc' else (v', c') :: count_set cc' v c
  end.

(** [connection_count[v] = connection_count.get(v, 0) + 1] *)
Definition bump (cc : counts) (v : string) : counts :=
  count_set cc v (count_get cc v + 1).

(** The first loop: both ends of every link are counted, the source end
    first. *)
Fixpoint count_connections (causal_links : list CausalLink) (cc : counts)
    : counts :=
  match causal_links with
  | [] => cc
  | link :: rest =>
      let from_v := from_village link in
      let to_v := to_village link in
      count_connections rest (bump (bump cc from_v) to_v)
  end.

(** The float [min(1.0, count / n)] of an entry, for [n > 0].  It is not
    computed here: an entry keeps the two integers it is computed from. *)
Inductive Confidence : Type :=
| MinOneQuotient (count n : nat).

(** An entry of the returned list; the ["type"] and ["hypothesis"] entries
    are the same constants in every entry. *)
Record HiddenSource : Type := mkSource {
  location : string;
  connection_count : nat;
  source_confidence : Confidence
}.

(** The function returns a list of sources or raises the
    [ZeroDivisionError] of [count / len(village_data)]. *)
Inductive SourcesResult : Type :=
| Sources (l : list HiddenSource)
| ZeroDivisionError.

(** The second loop, over [connection_count.items()]. *)
Fixpoint collect_sources (items : counts) (n_villages : nat)
    : SourcesResult :=
  match items with
  | [] => Sources []
  | (village, count) :: rest =>
      if Nat.leb 2 count then
        match n_villages with
        | O => ZeroDivisionError
        | S _ =>
            match collect_sources rest n_villages with
            | Sources l =>
                Sources (mkSource village count
                           (MinOneQuotient count n_villages) :: l)
            | ZeroDivisionError => ZeroDivisionError
            end
        end
      else collect_sources rest n_villages
  end.

Definition _identify_hidden_sources (causal_links : list CausalLink)
    (village_data : list value) : SourcesResult :=
  collect_sources (count_connections causal_links [])
    (List.length village_data).

(** The ends of the links, in the order in which they are counted, and how
    often a village is among them. *)
Definition link_ends (causal_links : list CausalLink) : list string :=
  flat_map (fun link => [from_village link; to_village link]) causal_links.

Definition end_count (causal_links : list CausalLink) (v : string) : nat :=
  count_occ string_dec (link_ends causal_links) v.

(** Three villages around a hub, and a link from a village to itself. *)
Definition hub_links : list CausalLink :=
  [mkLink "Rampur" "Sitapur"; mkLink "Rampur" "Lakhanpur"].

Definition self_link : list CausalLink := [mkLink "Rampur" "Rampur"].

Definition three_villages : list value := [VDict []; VDict []; VDict []].

(** ** Dict lemmas *)

Section DictFacts.

Variables (d : pydict) (k : string) (v : value).

Lemma lookup_dict_set_same : lookup k (dict_set d k v) = Some v.
Proof.
  induction d as [| [k' v'] d' IH]; simpl.
  - now rewrite String.eqb_refl.
  - destruct (String.eqb k k') eqn:E; simpl.
    + now rewrite String.eqb_refl.
    + now rewrite E.
Qed.

Lemma lookup_dict_set_other (k0 : string) :
  k0 <> k -> lookup k0 (dict_set d k v) = lookup k0 d.
Proof.
  intros Hne. induction d as [| [k' v'] d' IH]; simpl.
  - apply String.eqb_neq in Hne. now rewrite Hne.
  - destruct (String.eqb k k') eqn:E; simpl.
    + apply String.eqb_eq in E. subst k'.
      apply String.eqb_neq in Hne. now rewrite Hne.
    + now rewrite IH.
Qed.

Lemma lookup_dict_set_mono (k0 : string) :
  lookup k0 d <> None -> lookup k0 (dict_set d k v) <> None.
Proof.
  intros H. destruct (String.eqb_spec k0 k) as [-> | Hne].
  - rewrite lookup_dict_set_same. discriminate.
  - now rewrite lookup_dict_set_other.
Qed.

Lemma lookup_None_not_key : lookup k d = None <-> ~ In k (keys d).
Proof.
  induction d as [| [k' v'] d' IH]; simpl.
  - tauto.
  - destruct (String.eqb_spec k k') as [-> | Hne].
    + split; [discriminate | intros H; exfalso; apply H; now left].
    + rewrite IH. split; intros H; [intros [E | E] | ]; try tauto.
      now subst.
Qed.

Lemma dict_set_fresh :
  lookup k d = None -> dict_set d k v = d ++ [(k, v)].
Proof.
  induction d as [| [k' v'] d' IH]; simpl; intros H.
  - reflexivity.
  - destruct (String.eqb k k'); [discriminate |].
    now rewrite IH.
Qed.

End DictFacts.

(** ** The shape of step outcomes *)

Lemma execute_agent_action_plain agent action context r :
  _execute_agent_action agent action context = Ok r -> plain_result r.
Proof.
  unfold _execute_agent_action.
  repeat match goal with
         | |- context [if ?b then _ else _] => destruct b
         end;
    try (destruct (risk_level agent); simpl; [| discriminate]);
    intros E; injection E as <-; repeat split.
Qed.

Lemma execute_agent_action_names_action agent action context r :
  _execute_agent_action agent action context = Ok r ->
  lookup "action" r = Some (VStr action).
Proof.
  unfold _execute_agent_action.
  repeat match goal with
         | |- context [if ?b then _ else _] => destruct b
         end;
    try (destruct (risk_level agent); simpl; [| discriminate]);
    intros E; injection E as <-; reflexivity.
Qed.

Lemma run_action_shape self step context r :
  run_action self step context = Ok r -> outcome_shape r.
Proof.
  unfold run_action.
  destruct (_select_agents self step) as [ags | e]; simpl; [| discriminate].
  destruct (parallel step).
  - intros E; injection E as <-. constructor.
  - destruct ags as [| [agent_id agent] rest]; simpl.
    + intros E; injection E as <-. apply shape_no_agent.
    + intros E. apply shape_single. eapply execute_agent_action_plain; eauto.
Qed.

Lemma execute_step_shape self step context r :
  _execute_step self step context = Ok r -> outcome_shape r.
Proof.
  unfold _execute_step.
  destruct (condition_fails step context) as [[|] | e]; simpl;
    [ intros E; injection E as <-; constructor | | discriminate ].
  match goal with
  | |- context [bind ?c _] => destruct c as [[dep |] | e]; simpl
  end; [ intros E; injection E as <-; constructor | | discriminate ].
  apply run_action_shape.
Qed.

(** An outcome with an ["error"] key stops the walk, and is never a skip. *)
Lemma shape_error_halts step r :
  outcome_shape r -> has_key "error" r = true ->
  _should_continue step r = false /\ has_key "skipped" r = false.
Proof.
  intros [reason | entries | r' (He & _) |]; unfold has_key; simpl;
    try discriminate; try (split; reflexivity).
  now rewrite He.
Qed.

Lemma shape_continue_no_error step r :
  outcome_shape r -> _should_continue step r = true ->
  has_key "error" r = false.
Proof.
  intros Hs Hc. destruct (has_key "error" r) eqn:E; [| reflexivity].
  destruct (shape_error_halts step Hs E) as [H _]. congruence.
Qed.

Lemma shape_skipped_continues step r :
  outcome_shape r -> has_key "skipped" r = true ->
  _should_continue step r = true.
Proof.
  intros [reason | entries | r' (_ & Hk & _) |]; unfold has_key; simpl;
    try discriminate; try reflexivity.
  now rewrite Hk.
Qed.

(** ** The walk over the steps *)

Section Walk.

Variables (self : OutbreakDetectionWorkflow) (trigger_data : value).

(** One round of the loop, case by case. *)
Lemma run_steps_cons step rest sr :
  (exists r,
      _execute_step self step (make_results trigger_data sr) = Ok r /\
      outcome_shape r /\
      ((_should_continue step r = true /\
        run_steps self (step :: rest) trigger_data sr =
        run_steps self rest trigger_data (dict_set sr (name step) (VDict r)))
       \/
       (_should_continue step r = false /\
        run_steps self (step :: rest) trigger_data sr =
        dict_set sr (name step) (VDict r))))
  \/
  (exists e,
      _execute_step self step (make_results trigger_data sr) = Raise e /\
      run_steps self (step :: rest) trigger_data sr =
      dict_set sr (name step) (VDict [("error", VStr (str e))])).
Proof.
  simpl.
  destruct (_execute_step self step (make_results trigger_data sr))
    as [r | e] eqn:E.
  - left. exists r. split; [reflexivity |].
    split; [eapply execute_step_shape; eauto |].
    destruct (_should_continue step r); [left | right]; split; reflexivity.
  - right. exists e. split; reflexivity.
Qed.

(** Steps only ever add entries. *)
Lemma run_steps_mono k : forall todo sr,
  lookup k sr <> None -> lookup k (run_steps self todo trigger_data sr) <> None.
Proof.
  induction todo as [| step rest IH]; intros sr H; [exact H |].
  destruct (run_steps_cons step rest sr)
    as [(r & _ & _ & [(_ & ->) | (_ & ->)]) | (e & _ & ->)];
    [apply IH | |]; now apply lookup_dict_set_mono.
Qed.

(** Names outside the remaining steps are left alone. *)
Lemma run_steps_frame k : forall todo sr,
  ~ In k (map name todo) ->
  lookup k (run_steps self todo trigger_data sr) = lookup k sr.
Proof.
  induction todo as [| step rest IH]; intros sr H; [reflexivity |].
  simpl in H.
  assert (Hk : k <> name step) by (intros ->; apply H; now left).
  assert (Hr : ~ In k (map name rest)) by (intros Hin; apply H; now right).
  destruct (run_steps_cons step rest sr)
    as [(r & _ & _ & [(_ & ->) | (_ & ->)]) | (e & _ & ->)];
    [rewrite IH by assumption | |]; now apply lookup_dict_set_other.
Qed.

(** The step at the head of the list is always recorded. *)
Lemma run_steps_records_head step rest sr :
  lookup (name step) (run_steps self (step :: rest) trigger_data sr) <> None.
Proof.
  destruct (run_steps_cons step rest sr)
    as [(r & _ & _ & [(_ & ->) | (_ & ->)]) | (e & _ & ->)];
    [apply run_steps_mono | |]; rewrite lookup_dict_set_same; discriminate.
Qed.

Lemma run_steps_failed_halts : forall pre todo sr s post d,
  todo = pre ++ s :: post ->
  NoDup (map name todo) ->
  (forall x, In x todo -> lookup (name x) sr = None) ->
  lookup (name s) (run_steps self todo trigger_data sr) = Some (VDict d) ->
  has_key "error" d = true ->
  forall s', In s' post ->
  lookup (name s') (run_steps self todo trigger_data sr) = None.
Proof.
  induction pre as [| p pre IH]; intros todo sr s post d -> Hnd Hfresh Hrec Herr
    s' Hin; cbn [app map] in *.
  - inversion Hnd as [| ? ? Hnotin Hnd']; subst.
    assert (Hne : name s' <> name s).
    { intros E. apply Hnotin. rewrite <- E. now apply in_map. }
    destruct (run_steps_cons s post sr)
      as [(r & _ & Hsh & [(Hc & E) | (_ & E)]) | (e & _ & E)];
      rewrite E in *.
    + rewrite run_steps_frame, lookup_dict_set_same in Hrec by assumption.
      injection Hrec as <-.
      rewrite (shape_continue_no_error s Hsh Hc) in Herr. discriminate.
    + rewrite lookup_dict_set_other by assumption. apply Hfresh. now right.
    + rewrite lookup_dict_set_other by assumption. apply Hfresh. now right.
  - inversion Hnd as [| ? ? Hnotin Hnd']; subst.
    assert (Hs : name s <> name p).
    { intros E. apply Hnotin. rewrite <- E, map_app, in_app_iff.
      right. now left. }
    assert (Hs0 : lookup (name s) sr = None).
    { apply Hfresh. right. rewrite in_app_iff. right. now left. }
    destruct (run_steps_cons p (pre ++ s :: post) sr)
      as [(r & _ & Hsh & [(Hc & E) | (_ & E)]) | (e & _ & E)];
      rewrite E in *.
    + eapply IH; eauto.
      intros x Hx. rewrite lookup_dict_set_other.
      * apply Hfresh. now right.
      * intros Ex. apply Hnotin. rewrite <- Ex. now apply in_map.
    + rewrite lookup_dict_set_other in Hrec by assumption. congruence.
    + rewrite lookup_dict_set_other in Hrec by assumption. congruence.
Qed.

Lemma run_steps_skipped_continues : forall pre todo sr s s' post d,
  todo = pre ++ s :: s' :: post ->
  NoDup (map name todo) ->
  (forall x, In x todo -> lookup (name x) sr = None) ->
  lookup (name s) (run_steps self todo trigger_data sr) = Some (VDict d) ->
  has_key "skipped" d = true ->
  lookup (name s') (run_steps self todo trigger_data sr) <> None.
Proof.
  induction pre as [| p pre IH]; intros todo sr s s' post d -> Hnd Hfresh Hrec
    Hsk; cbn [app map] in *.
  - inversion Hnd as [| ? ? Hnotin Hnd']; subst.
    destruct (run_steps_cons s (s' :: post) sr)
      as [(r & _ & Hsh & [(Hc & E) | (Hc & E)]) | (e & _ & E)];
      rewrite E in *.
    + apply run_steps_records_head.
    + rewrite lookup_dict_set_same in Hrec. injection Hrec as <-.
      rewrite (shape_skipped_continues s Hsh Hsk) in Hc. discriminate.
    + rewrite lookup_dict_set_same in Hrec. injection Hrec as <-.
      discriminate.
  - inversion Hnd as [| ? ? Hnotin Hnd']; subst.
    assert (Hs : name s <> name p).
    { intros E. apply Hnotin. rewrite <- E, map_app, in_app_iff.
      right. now left. }
    assert (Hs0 : lookup (name s) sr = None).
    { apply Hfresh. right. rewrite in_app_iff. right. now left. }
    destruct (run_steps_cons p (pre ++ s :: s' :: post) sr)
      as [(r & _ & Hsh & [(Hc & E) | (_ & E)]) | (e & _ & E)];
      rewrite E in *.
    + eapply IH; eauto.
      intros x Hx. rewrite lookup_dict_set_other.
      * apply Hfresh. now right.
      * intros Ex. apply Hnotin. rewrite <- Ex. now apply in_map.
    + rewrite lookup_dict_set_other in Hrec by assumption. congruence.
    + rewrite lookup_dict_set_other in Hrec by assumption. congruence.
Qed.

End Walk.

Lemma run_steps_step_ok self step rest trigger_data sr r :
  _execute_step self step (make_results trigger_data sr) = Ok r ->
  _should_continue step r = true ->
  run_steps self (step :: rest) trigger_data sr =
  run_steps self rest trigger_data (dict_set sr (name step) (VDict r)).
Proof. intros H1 H2. simpl. now rewrite H1, H2. Qed.

Lemma run_steps_step_raise self step rest trigger_data sr e :
  _execute_step self step (make_results trigger_data sr) = Raise e ->
  run_steps self (step :: rest) trigger_data sr =
  dict_set sr (name step) (VDict [("error", VStr (str e))]).
Proof. intros H. simpl. now rewrite H. Qed.

Lemma recorded_configured self trigger_data orch k :
  orchestrator self = Some orch ->
  recorded self trigger_data k =
  lookup k (run_steps self (steps self) trigger_data []).
Proof. unfold recorded, execute. now intros ->. Qed.

Lemma recorded_unconfigured self trigger_data k :
  orchestrator self = None -> recorded self trigger_data k = None.
Proof. unfold recorded, execute. now intros ->. Qed.

(** ** C1: the report of a run *)

Section Escapes.

Import Cancellable.

Variable self : Cancellable.OutbreakDetectionWorkflow.











End Escapes.



(** On agents that raise nothing but [Exception]s the two readings of the
    source coincide, function by function. *)
Section Agreement.

Variable self : OutbreakDetectionWorkflow.

Let lift (x : string * Agent) : string * Cancellable.Agent :=
  (fst x, cancellable_agent (snd x)).

Lemma cancellable_max_scan_agrees : forall items best bk,
  Cancellable.max_scan (lift best) bk (cancellable_agents items) =
  match max_scan best bk items with
  | Ok m => Cancellable.Returned (lift m)
  | Raise e => Cancellable.Raised e
  end.
Proof.
  induction items as [| x rest IH]; intros best bk; [reflexivity |].
  cbn [cancellable_agents map Cancellable.max_scan max_scan snd
       cancellable_agent Cancellable.outbreak_belief].
  destruct (outbreak_belief (snd x)) as [k | e];
    cbn [Cancellable.of_res Cancellable.bind bind]; [| reflexivity].
  destruct (belief_gt k bk); [apply (IH x) | apply IH].
Qed.

Lemma cancellable_select_agents_agrees step :
  Cancellable._select_agents (cancellable_workflow self) step =
  match _select_agents self step with
  | Ok ags => Cancellable.Returned (cancellable_agents ags)
  | Raise e => Cancellable.Raised e
  end.
Proof.
  unfold Cancellable._select_agents, _select_agents, cancellable_workflow.
  cbn [Cancellable.orchestrator].
  destruct (orchestrator self) as [orch |]; [| reflexivity].
  cbn [Cancellable.agents]. cbv zeta.
  destruct (selector_is step "max_outbreak_belief").
  - unfold Cancellable.max_by_belief, max_by_belief.
    destruct (agents orch) as [| x rest]; [reflexivity |].
    cbn [cancellable_agents map snd cancellable_agent
         Cancellable.outbreak_belief].
    destruct (outbreak_belief (snd x)) as [k | e];
      cbn [Cancellable.of_res Cancellable.bind bind]; [| reflexivity].
    pose proof (cancellable_max_scan_agrees rest x k) as H.
    unfold lift at 1 in H. cbn [fst snd] in H.
    unfold cancellable_agents in H. rewrite H.
    destruct (max_scan x k rest) as [m | e]; reflexivity.
  - destruct (selector_is step "proposer"); [| reflexivity].
    destruct (agents orch) as [| [k a] rest]; reflexivity.
Qed.

Lemma cancellable_action_agrees agent action context :
  Cancellable._execute_agent_action (cancellable_agent agent) action context =
  Cancellable.of_res (_execute_agent_action agent action context).
Proof.
  unfold Cancellable._execute_agent_action, _execute_agent_action.
  repeat match goal with
         | |- context [if ?c then _ else _] => destruct c
         end; try reflexivity.
  cbn [cancellable_agent Cancellable.risk_level].
  destruct (risk_level agent); reflexivity.
Qed.

Lemma cancellable_agent_entry_agrees agent action context :
  Cancellable.agent_entry (cancellable_agent agent) action context =
  Cancellable.Returned (agent_entry agent action context).
Proof.
  unfold Cancellable.agent_entry, agent_entry.
  rewrite cancellable_action_agrees.
  destruct (_execute_agent_action agent action context); reflexivity.
Qed.

Lemma cancellable_parallel_loop_agrees action context : forall ags results,
  Cancellable.parallel_loop (cancellable_agents ags) action context results =
  Cancellable.Returned (parallel_loop ags action context results).
Proof.
  induction ags as [| [agent_id agent] rest IH]; intros results;
    [reflexivity |].
  cbn [cancellable_agents map fst snd Cancellable.parallel_loop parallel_loop].
  rewrite cancellable_agent_entry_agrees. cbn [Cancellable.bind].
  apply IH.
Qed.

Lemma cancellable_run_action_agrees step context :
  Cancellable.run_action (cancellable_workflow self) step context =
  Cancellable.of_res (run_action self step context).
Proof.
  unfold Cancellable.run_action, run_action.
  rewrite cancellable_select_agents_agrees.
  destruct (_select_agents self step) as [ags | e];
    cbn [Cancellable.bind bind Cancellable.of_res]; [| reflexivity].
  destruct (parallel step).
  - now rewrite cancellable_parallel_loop_agrees.
  - destruct ags as [| [agent_id agent] rest]; [reflexivity |].
    apply cancellable_action_agrees.
Qed.

Lemma cancellable_execute_step_agrees step context :
  Cancellable._execute_step (cancellable_workflow self) step context =
  Cancellable.of_res (_execute_step self step context).
Proof.
  unfold Cancellable._execute_step, _execute_step.
  destruct (condition_fails step context) as [[|] | e];
    cbn [Cancellable.of_res Cancellable.bind bind]; try reflexivity.
  match goal with
  | |- context [Cancellable.of_res ?c] => destruct c as [[dep |] | e]
  end; cbn [Cancellable.of_res Cancellable.bind bind]; try reflexivity.
  apply cancellable_run_action_agrees.
Qed.

Lemma cancellable_run_steps_agrees trigger_data : forall todo sr,
  Cancellable.run_steps (cancellable_workflow self) todo trigger_data sr =
  Cancellable.Returned (run_steps self todo trigger_data sr).
Proof.
  induction todo as [| step rest IH]; intros sr; [reflexivity |].
  cbn [Cancellable.run_steps run_steps].
  rewrite cancellable_execute_step_agrees.
  destruct (_execute_step self step (make_results trigger_data sr))
    as [r | e]; cbn [Cancellable.of_res]; [| reflexivity].
  cbv zeta. destruct (_should_continue step r); [apply IH | reflexivity].
Qed.

Lemma cancellable_execute_agrees trigger_data :
  Cancellable.execute (cancellable_workflow self) trigger_data =
  Cancellable.of_res (execute self trigger_data).
Proof.
  unfold Cancellable.execute, execute.
  change (Cancellable.steps (cancellable_workflow self)) with (steps self).
  rewrite cancellable_run_steps_agrees.
  unfold cancellable_workflow. cbn [Cancellable.orchestrator].
  destruct (orchestrator self); reflexivity.
Qed.

End Agreement.

(** ** C2: a failed step ends the run, a skipped one does not *)

(** C2: in a workflow whose step names are distinct, when the outcome
    recorded for a step has an ["error"] key, no step declared after it is
    recorded; when it is a skip, the step declared next is recorded. *)
Theorem C2_failed_halts_skipped_continues :
  forall (self : OutbreakDetectionWorkflow) (trigger_data : value)
         (pre : list WorkflowStep) (s : WorkflowStep)
         (post : list WorkflowStep) (outcome : value),
    steps self = pre ++ s :: post ->
    NoDup (map name (steps self)) ->
    recorded self trigger_data (name s) = Some outcome ->
    (is_error outcome = true ->
     forall s', In s' post -> recorded self trigger_data (name s') = None) /\
    (is_skip outcome = true ->
     match post with
     | s' :: _ => recorded self trigger_data (name s') <> None
     | [] => True
     end).
Proof.
  intros self trigger_data pre s post outcome Hsteps Hnd Hrec.
  destruct (orchestrator self) as [orch |] eqn:Ho.
  2: { rewrite recorded_unconfigured in Hrec by assumption. discriminate. }
  rewrite (recorded_configured _ _ _ Ho) in Hrec.
  split.
  - intros Herr s' Hin. rewrite (recorded_configured _ _ _ Ho).
    destruct outcome as [| | | | | d]; try discriminate.
    eapply run_steps_failed_halts; eauto.
  - intros Hsk. destruct post as [| s' post']; [exact I |].
    rewrite (recorded_configured _ _ _ Ho).
    destruct outcome as [| | | | | d]; try discriminate.
    eapply run_steps_skipped_continues; eauto.
Qed.

(** C2 on the built-in workflow over a registry without agents: the
    consensus proposal fails and voting is never recorded, while the skipped
    neighbor consultation is followed by collective reasoning. *)
Lemma C2_witness :
  (forall s', In s' [voting; quantum_escalation] ->
     recorded (init (Some empty_swarm)) sample_trigger (name s') = None) /\
  recorded (init (Some empty_swarm)) sample_trigger "collective_reasoning"
    <> None.
Proof.
  assert (Hnd : NoDup (map name (steps (init (Some empty_swarm))))).
  { simpl. repeat constructor; simpl; intuition discriminate. }
  split.
  - exact (proj1 (@C2_failed_halts_skipped_continues
             (init (Some empty_swarm)) sample_trigger
             [local_analysis; neighbor_consultation; collective_reasoning]
             consensus_proposal [voting; quantum_escalation]
             (VDict [("error", VStr "max() arg is an empty sequence")])
             eq_refl Hnd eq_refl) eq_refl).
  - exact (proj2 (@C2_failed_halts_skipped_continues
             (init (Some empty_swarm)) sample_trigger
             [local_analysis] neighbor_consultation
             [collective_reasoning; consensus_proposal; voting;
              quantum_escalation]
             (VDict (skipped "Condition not met: anomaly_detected == true"))
             eq_refl Hnd eq_refl) eq_refl).
Defined.

(** ** C3: one failing agent inside a parallel step *)

Section Parallel.

Variables (action : string) (context : pydict).

Let entry_of (x : string * Agent) : string * value :=
  (fst x, agent_entry (snd x) action context).

(** With distinct agent ids the loop records one entry per agent, in order. *)
Lemma parallel_loop_entries : forall ags results,
  NoDup (keys results ++ map fst ags) ->
  parallel_loop ags action context results = results ++ map entry_of ags.
Proof.
  induction ags as [| [agent_id agent] rest IH]; intros results Hnd; simpl.
  - now rewrite app_nil_r.
  - assert (Hfresh : lookup agent_id results = None).
    { apply lookup_None_not_key. intros Hin.
      apply NoDup_remove_2 in Hnd. apply Hnd.
      apply in_or_app. now left. }
    rewrite dict_set_fresh by assumption. rewrite IH.
    + now rewrite <- app_assoc.
    + unfold keys in *. rewrite map_app. simpl. rewrite <- app_assoc. exact Hnd.
Qed.

Lemma agent_entry_is_error agent :
  is_error (agent_entry agent action context) =
  raises (_execute_agent_action agent action context).
Proof.
  unfold agent_entry.
  destruct (_execute_agent_action agent action context) as [r | e] eqn:E;
    simpl; [| reflexivity].
  apply execute_agent_action_plain in E. destruct E as (He & _).
  unfold has_key. now rewrite He.
Qed.

Lemma agent_entry_is_normal agent :
  is_normal (agent_entry agent action context) =
  negb (raises (_execute_agent_action agent action context)).
Proof.
  unfold agent_entry.
  destruct (_execute_agent_action agent action context) as [r | e] eqn:E;
    simpl; [| reflexivity].
  pose proof (execute_agent_action_plain _ _ _ E) as (He & _).
  apply execute_agent_action_names_action in E.
  unfold has_key. now rewrite He, E.
Qed.

Lemma count_error_entries ags :
  List.length (filter (fun e => is_error (snd e)) (map entry_of ags)) =
  List.length (filter (fun x => raises
                    (_execute_agent_action (snd x) action context)) ags).
Proof.
  induction ags as [| x rest IH]; simpl; [reflexivity |].
  rewrite agent_entry_is_error.
  destruct (raises _); simpl; now rewrite IH.
Qed.

Lemma count_normal_entries ags :
  (List.length (filter (fun e => is_normal (snd e)) (map entry_of ags)) +
   List.length (filter (fun x => raises
                     (_execute_agent_action (snd x) action context)) ags) =
   List.length ags)%nat.
Proof.
  induction ags as [| x rest IH]; simpl; [reflexivity |].
  rewrite agent_entry_is_normal.
  destruct (raises _); simpl; lia.
Qed.

End Parallel.

(** A step whose condition holds and whose dependencies are all recorded
    goes on to select agents and run its action. *)
Lemma missing_dependency_none td sr : forall deps,
  (forall dep, In dep deps -> lookup dep sr <> None) ->
  missing_dependency deps (make_results td sr) = Ok None.
Proof.
  induction deps as [| dep rest IH]; intros H; simpl; [reflexivity |].
  unfold has_key. destruct (lookup dep sr) eqn:E.
  - apply IH. intros d Hd. apply H. now right.
  - exfalso. apply (H dep); [now left | exact E].
Qed.

Lemma execute_step_runs_action self step td sr :
  condition_fails step (make_results td sr) = Ok false ->
  dependencies_recorded step sr ->
  _execute_step self step (make_results td sr) =
  run_action self step (make_results td sr).
Proof.
  intros Hc Hd. unfold _execute_step. rewrite Hc. simpl bind.
  destruct (depends_on step) as [deps |] eqn:E; [| reflexivity].
  destruct (nonempty deps); [| reflexivity].
  rewrite missing_dependency_none; [reflexivity |].
  intros d Hin. eapply Hd; eauto.
Qed.

(** C3: a parallel step that passes its checks and selects [N] agents with
    distinct ids, exactly one of whose invocations raises, records a dict
    ["parallel_results"] with one entry per agent: one error entry and
    [N - 1] entries with the result of the action.  The outcome has no
    ["error"] key, [_should_continue] answers yes and the walk goes on with
    the remaining steps. *)
Theorem C3_parallel_failure_is_isolated :
  forall (self : OutbreakDetectionWorkflow) (trigger_data : value)
         (step : WorkflowStep) (rest : list WorkflowStep) (sr : pydict)
         (ags : list (string * Agent)),
    let context := make_results trigger_data sr in
    parallel step = true ->
    condition_fails step context = Ok false ->
    dependencies_recorded step sr ->
    _select_agents self step = Ok ags ->
    NoDup (map fst ags) ->
    List.length (filter (fun x => raises
              (_execute_agent_action (snd x) (agent_action step) context))
              ags) = 1%nat ->
    exists entries,
      let outcome := [("parallel_results", VDict entries)] in
      _execute_step self step context = Ok outcome /\
      map fst entries = map fst ags /\
      List.length entries = List.length ags /\
      List.length (filter (fun e => is_error (snd e)) entries) = 1%nat /\
      List.length (filter (fun e => is_normal (snd e)) entries)
        = (List.length ags - 1)%nat /\
      is_error (VDict outcome) = false /\
      _should_continue step outcome = true /\
      run_steps self (step :: rest) trigger_data sr =
      run_steps self rest trigger_data
        (dict_set sr (name step) (VDict outcome)).
Proof.
  intros self trigger_data step rest sr ags context Hpar Hcond Hdeps Hsel Hnd
    Hone.
  assert (Hstep : _execute_step self step context =
                  Ok [("parallel_results",
                       VDict (map (fun x => (fst x, agent_entry (snd x)
                                    (agent_action step) context)) ags))]).
  { unfold context. rewrite execute_step_runs_action by assumption.
    unfold run_action. rewrite Hsel. simpl bind. rewrite Hpar.
    now rewrite parallel_loop_entries. }
  eexists. cbv zeta. split; [exact Hstep |].
  split; [now rewrite map_map |].
  split; [now rewrite List.length_map |].
  split; [now rewrite count_error_entries |].
  split.
  { pose proof (count_normal_entries (agent_action step) context ags) as H.
    fold context in H. rewrite Hone in H. lia. }
  split; [reflexivity |].
  split; [reflexivity |].
  cbn [run_steps]. fold context. now rewrite Hstep.
Qed.

(** C3 on the built-in local analysis over three agents, one of them
    unreadable. *)
Lemma C3_witness :
  exists entries,
    _execute_step (init (Some faulty_swarm)) local_analysis
      (make_results sample_trigger []) =
    Ok [("parallel_results", VDict entries)] /\
    List.length entries = 3%nat /\
    List.length (filter (fun e => is_error (snd e)) entries) = 1%nat /\
    List.length (filter (fun e => is_normal (snd e)) entries) = 2%nat.
Proof.
  assert (Hnd : NoDup (map fst (agents faulty_swarm))).
  { simpl. repeat constructor; simpl; intuition discriminate. }
  assert (Hdeps : dependencies_recorded local_analysis []).
  { intros deps H. discriminate H. }
  destruct (@C3_parallel_failure_is_isolated
              (init (Some faulty_swarm)) sample_trigger local_analysis
              [neighbor_consultation] [] (agents faulty_swarm)
              eq_refl eq_refl Hdeps eq_refl Hnd eq_refl)
    as (entries & H1 & H2 & H3 & H4 & H5 & _).
  exists entries. repeat split; assumption.
Defined.

(** ** C4: the order of the two checks *)

Lemma missing_dependency_first td sr : forall deps,
  missing_dependency deps (make_results td sr) = Ok (first_missing deps sr).
Proof.
  induction deps as [| dep rest IH]; simpl; [reflexivity |].
  destruct (has_key dep sr); simpl; [exact IH | reflexivity].
Qed.

(** C4, as stated, fails: a step with the consensus precondition and a
    dependency on ["voting"], run on a report without any step result, is
    skipped for its condition; the reason does not name the dependency. *)
Lemma C4_condition_reported_not_dependency :
  has_key "voting" [] = false /\
  _execute_step (init (Some calm_swarm)) escalation_after_voting
    (make_results sample_trigger []) =
  Ok (skipped "Condition not met: consensus_reached == true") /\
  str_contains "voting" "Condition not met: consensus_reached == true" = false.
Proof. repeat split. Qed.

(** C4, amended: the condition is checked first.  A step whose precondition
    is present, not empty, and evaluates to a falsy value is skipped with the
    reason "Condition not met: <condition>", whatever its dependencies.  A
    step whose condition check passes and one of whose dependencies is not
    recorded is skipped with the reason "Dependency not met: <name>" for the
    first such dependency, and its action is not run. *)
Theorem C4_condition_then_dependencies :
  forall (self : OutbreakDetectionWorkflow) (step : WorkflowStep)
         (trigger_data : value) (sr : pydict),
    let context := make_results trigger_data sr in
    (forall c v,
        condition step = Some c -> c <> "" ->
        _evaluate_condition c context = Ok v -> truthy v = false ->
        _execute_step self step context =
        Ok (skipped ("Condition not met: " ++ c))) /\
    (forall deps dep,
        condition_fails step context = Ok false ->
        depends_on step = Some deps ->
        first_missing deps sr = Some dep ->
        _execute_step self step context =
        Ok (skipped ("Dependency not met: " ++ dep))).
Proof.
  intros self step trigger_data sr context. split.
  - intros c v Hc Hne Hev Hv.
    unfold _execute_step, condition_fails. rewrite Hc.
    apply String.eqb_neq in Hne. simpl truthy. rewrite Hne. simpl negb.
    cbv iota. rewrite Hev. simpl. now rewrite Hv.
  - intros deps dep Hc Hd Hm.
    unfold _execute_step. rewrite Hc, Hd. cbn [bind].
    destruct deps as [| d0 deps']; [discriminate |].
    cbn [nonempty]. unfold context.
    now rewrite missing_dependency_first, Hm.
Qed.

(** C4 on two steps: the one above, and voting before any proposal. *)
Lemma C4_witness :
  _execute_step (init (Some calm_swarm)) escalation_after_voting
    (make_results sample_trigger []) =
  Ok (skipped "Condition not met: consensus_reached == true") /\
  _execute_step (init (Some calm_swarm)) voting
    (make_results sample_trigger []) =
  Ok (skipped "Dependency not met: consensus_proposal").
Proof.
  split.
  - apply (proj1 (C4_condition_then_dependencies (init (Some calm_swarm))
                    escalation_after_voting sample_trigger [])
             "consensus_reached == true" (VBool false)).
    + reflexivity.
    + discriminate.
    + reflexivity.
    + reflexivity.
  - apply (proj2 (C4_condition_then_dependencies (init (Some calm_swarm))
                    voting sample_trigger [])
             ["consensus_proposal"] "consensus_proposal");
      reflexivity.
Defined.

(** ** C5: selection on an empty registry *)

(** C5: on a registry without agents only the default strategy yields the
    empty selection; the max-belief strategy raises [ValueError] and the
    proposer strategy raises [IndexError]. *)
Theorem C5_selection_on_empty_registry :
  forall (todo : list WorkflowStep) (step : WorkflowStep),
    _select_agents (mkWorkflow (Some empty_swarm) todo) step =
    if selector_is step "max_outbreak_belief"
    then Raise (mkExn ValueError "max() arg is an empty sequence")
    else if selector_is step "proposer"
         then Raise (mkExn IndexError "list index out of range")
         else Ok [].
Proof.
  intros todo step. unfold _select_agents. simpl.
  destruct (selector_is step "max_outbreak_belief"); [reflexivity |].
  destruct (selector_is step "proposer"); reflexivity.
Qed.

(** ** C8: expressions the evaluator does not recognise *)

(** C8, as stated, fails: the evaluator looks for its predicates as
    substrings, so an expression that merely contains one of them is
    evaluated as that predicate. *)
Lemma C8_unknown_expression_evaluates_false :
  "no_anomaly_detected == true" <> anomaly_predicate /\
  "no_anomaly_detected == true" <> consensus_predicate /\
  _evaluate_condition "no_anomaly_detected == true"
    (make_results sample_trigger []) = Ok (VBool false) /\
  _execute_step (init (Some calm_swarm))
    (with_condition local_analysis (Some "no_anomaly_detected == true"))
    (make_results sample_trigger []) =
  Ok (skipped "Condition not met: no_anomaly_detected == true").
Proof. repeat split; discriminate. Qed.

(** C8, amended: an expression that contains neither predicate string
    evaluates to [True] in every context, and a step guarded by it runs as
    the same step without a precondition. *)
Theorem C8_unrecognised_condition_is_true :
  forall (c : string) (context : pydict),
    str_contains anomaly_predicate c = false ->
    str_contains consensus_predicate c = false ->
    _evaluate_condition c context = Ok (VBool true) /\
    forall (self : OutbreakDetectionWorkflow) (step : WorkflowStep),
      _execute_step self (with_condition step (Some c)) context =
      _execute_step self (with_condition step None) context.
Proof.
  intros c context Ha Hc.
  assert (Hev : _evaluate_condition c context = Ok (VBool true)).
  { unfold _evaluate_condition.
    unfold anomaly_predicate in Ha. unfold consensus_predicate in Hc.
    now rewrite Ha, Hc. }
  split; [exact Hev |].
  intros self step.
  unfold _execute_step, condition_fails, run_action, _select_agents,
    selector_is, with_condition.
  cbn [condition depends_on parallel agent_action agent_selector].
  destruct (truthy (VStr c)); [| reflexivity].
  rewrite Hev. reflexivity.
Qed.

Lemma C8_witness :
  _evaluate_condition "quorum_present == true"
    (make_results sample_trigger []) = Ok (VBool true).
Proof.
  apply (C8_unrecognised_condition_is_true "quorum_present == true"
           (make_results sample_trigger [])); reflexivity.
Defined.

(** ** The built-in workflow, step by step *)

Lemma agent_entry_any_context agent action c1 c2 :
  agent_entry agent action c1 = agent_entry agent action c2.
Proof. reflexivity. Qed.

Lemma parallel_loop_any_context action c1 c2 : forall ags results,
  parallel_loop ags action c1 results = parallel_loop ags action c2 results.
Proof.
  induction ags as [| [agent_id agent] rest IH]; intros results; simpl;
    [reflexivity | apply IH].
Qed.

Lemma in_dict_set d k v e :
  In e (dict_set d k v) -> In e d \/ e = (k, v).
Proof.
  induction d as [| [k' v'] d' IH]; simpl.
  - intros [<- | []]. now right.
  - destruct (String.eqb k k'); simpl.
    + intros [<- | H]; [now right | left; now right].
    + intros [<- | H]; [left; now left |].
      destruct (IH H) as [H' | H']; [left; now right | now right].
Qed.

(** Every entry of a parallel step is the entry of one of its agents. *)
Lemma parallel_loop_origin action context : forall ags results e,
  In e (parallel_loop ags action context results) ->
  In e results \/
  exists x, In x ags /\ e = (fst x, agent_entry (snd x) action context).
Proof.
  induction ags as [| [agent_id agent] rest IH]; intros results e H; simpl in H.
  - now left.
  - destruct (IH _ _ H) as [H' | (x & Hx & ->)].
    + destruct (in_dict_set _ _ _ _ H') as [H'' | ->]; [now left |].
      right. exists (agent_id, agent). split; [now left | reflexivity].
    + right. exists x. split; [now right | reflexivity].
Qed.

Lemma entries_for_origin ags action e :
  In e (entries_for ags action) ->
  exists x, In x ags /\ e = (fst x, agent_entry (snd x) action []).
Proof.
  intros H. destruct (parallel_loop_origin _ _ _ _ _ H) as [[] | H']. exact H'.
Qed.

Lemma agent_entry_is_dict agent action context :
  exists d, agent_entry agent action context = VDict d.
Proof.
  unfold agent_entry.
  destruct (_execute_agent_action agent action context); eexists; reflexivity.
Qed.

(** On entries that are dicts the scan for a risky entry does not raise. *)
Lemma any_risk_dicts : forall vs,
  Forall (fun v => exists d, v = VDict d) vs ->
  any_risk vs = Ok (existsb reports_high_risk vs).
Proof.
  induction vs as [| v rest IH]; intros H; [reflexivity |].
  inversion H as [| ? ? (d & ->) Hrest]; subst.
  simpl. destruct (_ || _); simpl; [reflexivity | now apply IH].
Qed.

Lemma existsb_map {A B : Type} (f : A -> B) (p : B -> bool) : forall l,
  existsb p (map f l) = existsb (fun x => p (f x)) l.
Proof.
  induction l as [| x rest IH]; simpl; [reflexivity | now rewrite IH].
Qed.

Lemma any_risk_entries ags action :
  any_risk (map snd (entries_for ags action)) =
  Ok (existsb (fun e => reports_high_risk (snd e)) (entries_for ags action)).
Proof.
  rewrite any_risk_dicts, existsb_map; [reflexivity |].
  apply Forall_forall. intros v Hv.
  apply in_map_iff in Hv. destruct Hv as (e & <- & He).
  apply entries_for_origin in He. destruct He as (x & _ & ->).
  apply agent_entry_is_dict.
Qed.

Section Builtin.

Variables (orch : Orchestrator) (trigger_data : value).

Let self := init (Some orch).
Let ags := agents orch.

Lemma parallel_loop_entries_for action context :
  parallel_loop ags action context [] = entries_for ags action.
Proof. apply parallel_loop_any_context. Qed.

Lemma local_analysis_outcome sr :
  _execute_step self local_analysis (make_results trigger_data sr) =
  Ok [("parallel_results", VDict (entries_for ags "analyze_symptoms"))].
Proof.
  unfold _execute_step, run_action. cbn -[parallel_loop].
  now rewrite parallel_loop_entries_for.
Qed.

Lemma anomaly_condition_on_local_analysis c td sr :
  str_contains anomaly_predicate c = true ->
  lookup "local_analysis" sr = Some (parallel_outcome ags "analyze_symptoms") ->
  _evaluate_condition c (make_results td sr) =
  Ok (VBool (existsb (fun e => reports_high_risk (snd e))
               (entries_for ags "analyze_symptoms"))).
Proof.
  intros Hc Hla. unfold _evaluate_condition.
  unfold anomaly_predicate in Hc. rewrite Hc.
  cbn -[any_risk entries_for]. unfold dict_get. rewrite Hla.
  cbn -[any_risk entries_for]. now rewrite any_risk_entries.
Qed.

Lemma neighbor_consultation_outcome sr :
  lookup "local_analysis" sr = Some (parallel_outcome ags "analyze_symptoms") ->
  _execute_step self neighbor_consultation (make_results trigger_data sr) =
  Ok (if existsb (fun e => reports_high_risk (snd e))
           (entries_for ags "analyze_symptoms")
      then [("parallel_results", VDict (entries_for ags "query_neighbors"))]
      else skipped "Condition not met: anomaly_detected == true").
Proof.
  intros Hla. unfold _execute_step, condition_fails.
  cbn [condition neighbor_consultation truthy String.eqb Ascii.eqb Bool.eqb
       negb].
  rewrite anomaly_condition_on_local_analysis
    by first [reflexivity | assumption].
  cbn [bind truthy].
  destruct (existsb _ _); cbn -[parallel_loop]; [| reflexivity].
  unfold run_action. cbn -[parallel_loop].
  now rewrite parallel_loop_entries_for.
Qed.

Lemma collective_reasoning_outcome sr :
  lookup "neighbor_consultation" sr <> None ->
  _execute_step self collective_reasoning (make_results trigger_data sr) =
  Ok [("parallel_results",
       VDict (entries_for ags "reason_about_collective_evidence"))].
Proof.
  intros Hnc. rewrite execute_step_runs_action.
  - unfold run_action. cbn -[parallel_loop].
    now rewrite parallel_loop_entries_for.
  - reflexivity.
  - intros deps Hd dep Hin. injection Hd as <-.
    destruct Hin as [<- | []]. exact Hnc.
Qed.

Lemma consensus_proposal_outcome sr :
  _execute_step self consensus_proposal (make_results trigger_data sr) =
  match max_by_belief ags with
  | Ok _ => Ok [("action", VStr "propose_consensus");
                ("proposal_made", VBool true)]
  | Raise e => Raise e
  end.
Proof.
  unfold _execute_step, run_action. cbn -[max_by_belief].
  fold ags. destruct (max_by_belief ags); reflexivity.
Qed.

Lemma voting_outcome sr :
  lookup "consensus_proposal" sr <> None ->
  _execute_step self voting (make_results trigger_data sr) =
  Ok [("parallel_results", VDict (entries_for ags "vote"))].
Proof.
  intros Hcp. rewrite execute_step_runs_action.
  - unfold run_action. cbn -[parallel_loop].
    now rewrite parallel_loop_entries_for.
  - reflexivity.
  - intros deps Hd dep Hin. injection Hd as <-.
    destruct Hin as [<- | []]. exact Hcp.
Qed.

(** The consensus predicate on a report whose voting entry is a parallel
    outcome: the entry has no ["consensus_reached"] key. *)
Lemma consensus_condition_on_voting c td sr entries :
  str_contains anomaly_predicate c = false ->
  str_contains consensus_predicate c = true ->
  lookup "voting" sr = Some (VDict [("parallel_results", VDict entries)]) ->
  _evaluate_condition c (make_results td sr) = Ok (VBool false).
Proof.
  intros Ha Hc Hv. unfold _evaluate_condition.
  unfold anomaly_predicate in Ha. unfold consensus_predicate in Hc.
  rewrite Ha, Hc. cbn. unfold dict_get. rewrite Hv. reflexivity.
Qed.

Lemma quantum_escalation_outcome sr entries :
  lookup "voting" sr = Some (VDict [("parallel_results", VDict entries)]) ->
  _execute_step self quantum_escalation (make_results trigger_data sr) =
  Ok (skipped "Condition not met: consensus_reached == true").
Proof.
  intros Hv. unfold _execute_step, condition_fails.
  cbn [condition quantum_escalation truthy String.eqb Ascii.eqb Bool.eqb
       negb].
  erewrite consensus_condition_on_voting by first [reflexivity | eassumption].
  reflexivity.
Qed.

Lemma builtin_walk :
  run_steps self _define_steps trigger_data [] = builtin_step_results ags.
Proof.
  unfold _define_steps, builtin_step_results, before_proposal, after_proposal,
    parallel_outcome.
  erewrite run_steps_step_ok;
    [| apply local_analysis_outcome | reflexivity].
  erewrite run_steps_step_ok;
    [| apply neighbor_consultation_outcome; reflexivity
     | destruct (existsb _ _); reflexivity].
  erewrite run_steps_step_ok;
    [| apply collective_reasoning_outcome; discriminate | reflexivity].
  cbn -[entries_for existsb max_by_belief run_steps _execute_step].
  destruct (max_by_belief ags) as [best | e] eqn:Hmax.
  - erewrite run_steps_step_ok;
      [| rewrite consensus_proposal_outcome, Hmax; reflexivity | reflexivity].
    erewrite run_steps_step_ok;
      [| apply voting_outcome; discriminate | reflexivity].
    erewrite run_steps_step_ok;
      [| eapply quantum_escalation_outcome; reflexivity | reflexivity].
    destruct (existsb _ _); reflexivity.
  - erewrite run_steps_step_raise;
      [| rewrite consensus_proposal_outcome, Hmax; reflexivity].
    destruct (existsb _ _); reflexivity.
Qed.

End Builtin.

Lemma recorded_builtin orch trigger_data k :
  recorded (init (Some orch)) trigger_data k =
  lookup k (builtin_step_results (agents orch)).
Proof.
  rewrite (@recorded_configured _ _ orch) by reflexivity.
  change (steps (init (Some orch))) with _define_steps.
  now rewrite builtin_walk.
Qed.

Lemma vote_entries ags :
  Forall (fun e => snd e = vote_payload) (entries_for ags "vote").
Proof.
  apply Forall_forall. intros e He.
  apply entries_for_origin in He. destruct He as (x & _ & ->). reflexivity.
Qed.

(** The maximum exists as soon as there is an agent and every belief can be
    read. *)
Lemma max_scan_readable : forall items best best_key,
  (forall x, In x items -> raises (outbreak_belief (snd x)) = false) ->
  exists m, max_scan best best_key items = Ok m.
Proof.
  induction items as [| x rest IH]; intros best best_key H; simpl.
  - eexists; reflexivity.
  - destruct (outbreak_belief (snd x)) as [k | e] eqn:E.
    + simpl. destruct (belief_gt k best_key); apply IH;
        intros y Hy; apply H; now right.
    + specialize (H x (or_introl eq_refl)). rewrite E in H. discriminate.
Qed.

Lemma max_by_belief_readable items :
  items <> [] ->
  (forall x, In x items -> raises (outbreak_belief (snd x)) = false) ->
  exists m, max_by_belief items = Ok m.
Proof.
  destruct items as [| x rest]; intros Hne H; [congruence |]. simpl.
  destruct (outbreak_belief (snd x)) as [k | e] eqn:E.
  - simpl. apply max_scan_readable. intros y Hy. apply H. now right.
  - specialize (H x (or_introl eq_refl)). rewrite E in H. discriminate.
Qed.

(** ** C6: the escalation step of the built-in workflow *)

(** C6: in every run of the built-in workflow in which the escalation step
    is recorded, its outcome is the skip "Condition not met:
    consensus_reached == true"; voting is recorded as parallel results whose
    entries are all the fixed vote payload, that outcome has no
    ["consensus_reached"] key, and the consensus predicate is false on every
    report with that voting entry.  The step is reached whenever the
    registry has an agent and every belief score can be read. *)
Theorem C6_escalation_is_always_skipped :
  forall (orch : Orchestrator) (trigger_data : value),
    let self := init (Some orch) in
    (forall outcome,
        recorded self trigger_data "quantum_escalation" = Some outcome ->
        outcome =
          VDict (skipped "Condition not met: consensus_reached == true") /\
        exists entries,
          recorded self trigger_data "voting" =
            Some (VDict [("parallel_results", VDict entries)]) /\
          Forall (fun e => snd e = vote_payload) entries /\
          lookup "consensus_reached" [("parallel_results", VDict entries)]
            = None /\
          forall sr,
            lookup "voting" sr = recorded self trigger_data "voting" ->
            _evaluate_condition consensus_predicate
              (make_results trigger_data sr) = Ok (VBool false)) /\
    (agents orch <> [] ->
     (forall x, In x (agents orch) ->
                raises (outbreak_belief (snd x)) = false) ->
     recorded self trigger_data "quantum_escalation" <> None).
Proof.
  intros orch trigger_data self. unfold self.
  rewrite !recorded_builtin. unfold builtin_step_results. split.
  - intros outcome.
    destruct (max_by_belief (agents orch)) as [best | e];
      cbn [before_proposal after_proposal app lookup String.eqb Ascii.eqb
           Bool.eqb]; [| discriminate].
    intros E; injection E as <-. split; [reflexivity |].
    exists (entries_for (agents orch) "vote").
    split; [reflexivity |]. split; [apply vote_entries |].
    split; [reflexivity |].
    intros sr Hsr.
    eapply consensus_condition_on_voting; [reflexivity | reflexivity |].
    exact Hsr.
  - intros Hne Hread.
    destruct (max_by_belief_readable Hne Hread) as (m & ->).
    cbn [before_proposal after_proposal app lookup String.eqb Ascii.eqb
         Bool.eqb]. discriminate.
Qed.

Lemma C6_witness :
  (exists entries,
      recorded (init (Some alarmed_swarm)) sample_trigger "voting" =
        Some (VDict [("parallel_results", VDict entries)]) /\
      Forall (fun e => snd e = vote_payload) entries) /\
  recorded (init (Some alarmed_swarm)) sample_trigger "quantum_escalation"
    <> None.
Proof.
  split.
  - destruct (proj1 (C6_escalation_is_always_skipped alarmed_swarm
                       sample_trigger)
                (VDict (skipped "Condition not met: consensus_reached == true"))
                eq_refl)
      as (_ & entries & H1 & H2 & _).
    exists entries. split; assumption.
  - apply (proj2 (C6_escalation_is_always_skipped alarmed_swarm
                    sample_trigger)).
    + discriminate.
    + intros x [<- | [<- | []]]; reflexivity.
Defined.

(** ** C7: the anomaly predicate *)

Lemma low_risk_entries ags :
  (forall x, In x ags -> risk_level (snd x) = Ok (VStr "low")) ->
  existsb (fun e => reports_high_risk (snd e))
    (entries_for ags "analyze_symptoms") = false.
Proof.
  intros Hlow.
  destruct (existsb _ _) eqn:E; [| reflexivity].
  apply existsb_exists in E. destruct E as (e & He & Hrisk).
  apply entries_for_origin in He. destruct He as (x & Hx & ->).
  unfold agent_entry, _execute_agent_action in Hrisk.
  cbn [String.eqb Ascii.eqb Bool.eqb snd] in Hrisk.
  rewrite (Hlow x Hx) in Hrisk. discriminate Hrisk.
Qed.

(** C7: an expression with the anomaly predicate evaluates, without
    raising, to [False] when no local analysis is recorded, and otherwise to
    [True] exactly when some entry of the parallel results recorded for the
    local analysis reports the risk level "high" or "critical".  In a run of
    the built-in workflow in which every agent reports "low", the neighbor
    consultation is skipped for its condition. *)
Theorem C7_anomaly_predicate :
  forall (c : string) (trigger_data : value) (sr : pydict),
    str_contains anomaly_predicate c = true ->
    let context := make_results trigger_data sr in
    (lookup "local_analysis" sr = None ->
     _evaluate_condition c context = Ok (VBool false)) /\
    (forall la entries,
        lookup "local_analysis" sr = Some (VDict la) ->
        dict_get la "parallel_results" (VDict []) = VDict entries ->
        Forall (fun e => exists d, snd e = VDict d) entries ->
        exists b,
          _evaluate_condition c context = Ok (VBool b) /\
          (b = true <->
           exists id entry,
             In (id, entry) entries /\ reports_high_risk entry = true)) /\
    (forall orch,
        (forall x, In x (agents orch) ->
                   risk_level (snd x) = Ok (VStr "low")) ->
        recorded (init (Some orch)) trigger_data "neighbor_consultation" =
        Some (VDict (skipped "Condition not met: anomaly_detected == true"))).
Proof.
  intros c trigger_data sr Hc context.
  unfold anomaly_predicate in Hc. split; [| split].
  - intros Hla. unfold _evaluate_condition. rewrite Hc.
    cbn -[any_risk]. unfold dict_get. now rewrite Hla.
  - intros la entries Hla Hpr Hdicts.
    exists (existsb reports_high_risk (map snd entries)). split.
    + unfold _evaluate_condition. rewrite Hc.
      cbn -[any_risk]. unfold dict_get at 1. rewrite Hla.
      cbn -[any_risk]. rewrite Hpr. cbn -[any_risk].
      rewrite any_risk_dicts; [reflexivity |].
      apply Forall_forall. intros v Hv.
      apply in_map_iff in Hv. destruct Hv as (e & <- & He).
      rewrite Forall_forall in Hdicts. now apply Hdicts.
    + rewrite existsb_exists. split.
      * intros (v & Hv & Hrisk).
        apply in_map_iff in Hv. destruct Hv as ([id entry] & <- & He).
        exists id, entry. now split.
      * intros (id & entry & He & Hrisk).
        exists entry. split; [| exact Hrisk].
        apply in_map_iff. exists (id, entry). now split.
  - intros orch Hlow. rewrite recorded_builtin.
    unfold builtin_step_results.
    cbn [before_proposal app lookup String.eqb Ascii.eqb Bool.eqb].
    now rewrite low_risk_entries.
Qed.

Lemma C7_witness :
  _evaluate_condition "anomaly_detected == true"
    (make_results sample_trigger []) = Ok (VBool false) /\
  (exists b,
      _evaluate_condition "anomaly_detected == true"
        (make_results sample_trigger
           [("local_analysis",
             parallel_outcome (agents alarmed_swarm) "analyze_symptoms")])
      = Ok (VBool b) /\
      (b = true <->
       exists id entry,
         In (id, entry) (entries_for (agents alarmed_swarm) "analyze_symptoms")
         /\ reports_high_risk entry = true)) /\
  recorded (init (Some calm_swarm)) sample_trigger "neighbor_consultation" =
  Some (VDict (skipped "Condition not met: anomaly_detected == true")).
Proof.
  split; [| split].
  - apply (proj1 (C7_anomaly_predicate "anomaly_detected == true"
                    sample_trigger [] eq_refl)).
    reflexivity.
  - apply (proj1 (proj2 (C7_anomaly_predicate "anomaly_detected == true"
                           sample_trigger
                           [("local_analysis",
                             parallel_outcome (agents alarmed_swarm)
                               "analyze_symptoms")] eq_refl))
             [("parallel_results",
               VDict (entries_for (agents alarmed_swarm) "analyze_symptoms"))]).
    + reflexivity.
    + reflexivity.
    + repeat constructor; eexists; reflexivity.
  - apply (proj2 (proj2 (C7_anomaly_predicate "anomaly_detected == true"
                           sample_trigger [] eq_refl))).
    intros x [<- | [<- | []]]; reflexivity.
Defined.

(** ** C10: a dependency is met by any recorded outcome *)

(** C10: the dependency check looks at the names recorded in the step
    results only.  A step whose condition check passes and whose
    dependencies are all recorded, with whatever outcomes, selects agents
    and runs its action.  Collective reasoning, in particular, run on a
    report in which the neighbor consultation is recorded as skipped (or as
    anything else), records the parallel results of its action; so it does
    in every run of the built-in workflow in which the neighbor consultation
    was skipped. *)
Theorem C10_dependency_met_by_presence :
  forall (trigger_data : value),
    (forall self step sr,
        condition_fails step (make_results trigger_data sr) = Ok false ->
        (forall deps dep, depends_on step = Some deps -> In dep deps ->
                          exists outcome, lookup dep sr = Some outcome) ->
        _execute_step self step (make_results trigger_data sr) =
        run_action self step (make_results trigger_data sr)) /\
    (forall orch sr outcome,
        lookup "neighbor_consultation" sr = Some outcome ->
        _execute_step (init (Some orch)) collective_reasoning
          (make_results trigger_data sr) =
        Ok [("parallel_results",
             VDict (entries_for (agents orch)
                      "reason_about_collective_evidence"))]) /\
    (forall orch reason,
        recorded (init (Some orch)) trigger_data "neighbor_consultation" =
          Some (VDict (skipped reason)) ->
        recorded (init (Some orch)) trigger_data "collective_reasoning" =
          Some (parallel_outcome (agents orch)
                  "reason_about_collective_evidence")).
Proof.
  intros trigger_data. split; [| split].
  - intros self step sr Hc Hd.
    apply execute_step_runs_action; [exact Hc |].
    intros deps Hdeps dep Hin.
    destruct (Hd deps dep Hdeps Hin) as (outcome & ->). discriminate.
  - intros orch sr outcome Hnc.
    apply collective_reasoning_outcome. rewrite Hnc. discriminate.
  - intros orch reason _. rewrite recorded_builtin.
    unfold builtin_step_results.
    cbn [before_proposal app lookup String.eqb Ascii.eqb Bool.eqb].
    reflexivity.
Qed.

Lemma C10_witness :
  _execute_step (init (Some calm_swarm)) collective_reasoning
    (make_results sample_trigger
       [("neighbor_consultation",
         VDict (skipped "Condition not met: anomaly_detected == true"))]) =
  run_action (init (Some calm_swarm)) collective_reasoning
    (make_results sample_trigger
       [("neighbor_consultation",
         VDict (skipped "Condition not met: anomaly_detected == true"))]) /\
  _execute_step (init (Some calm_swarm)) collective_reasoning
    (make_results sample_trigger
       [("neighbor_consultation",
         VDict (skipped "Condition not met: anomaly_detected == true"))]) =
  Ok [("parallel_results",
       VDict (entries_for (agents calm_swarm)
                "reason_about_collective_evidence"))] /\
  recorded (init (Some calm_swarm)) sample_trigger "collective_reasoning" =
  Some (parallel_outcome (agents calm_swarm)
          "reason_about_collective_evidence").
Proof.
  split; [| split].
  - apply (proj1 (C10_dependency_met_by_presence sample_trigger)).
    + reflexivity.
    + intros deps dep Hdeps Hin. injection Hdeps as <-.
      destruct Hin as [<- | []]. eexists; reflexivity.
  - apply (proj1 (proj2 (C10_dependency_met_by_presence sample_trigger))
             calm_swarm _
             (VDict (skipped "Condition not met: anomaly_detected == true"))).
    reflexivity.
  - apply (proj2 (proj2 (C10_dependency_met_by_presence sample_trigger))
             calm_swarm "Condition not met: anomaly_detected == true").
    reflexivity.
Defined.

(** ** C9: the timeout of a step *)

Lemma execute_step_any_steps orch todo1 todo2 step context :
  _execute_step (mkWorkflow orch todo1) step context =
  _execute_step (mkWorkflow orch todo2) step context.
Proof. reflexivity. Qed.

Lemma execute_step_any_timeout self step t context :
  _execute_step self (with_timeout step t) context =
  _execute_step self step context.
Proof. reflexivity. Qed.

Lemma run_steps_any_timeout orch (f : WorkflowStep -> Z) todo1 todo2 td :
  forall todo sr,
    run_steps (mkWorkflow orch todo1)
      (map (fun s => with_timeout s (f s)) todo) td sr =
    run_steps (mkWorkflow orch todo2) todo td sr.
Proof.
  induction todo as [| step rest IH]; intros sr; [reflexivity |].
  cbn [map run_steps].
  rewrite execute_step_any_timeout.
  rewrite (execute_step_any_steps orch todo1 todo2).
  destruct (_execute_step (mkWorkflow orch todo2) step (make_results td sr))
    as [r | e]; [| reflexivity].
  change (name (with_timeout step (f step))) with (name step).
  change (_should_continue (with_timeout step (f step)) r)
    with (_should_continue step r).
  destruct (_should_continue step r); [apply IH | reflexivity].
Qed.

(** C9, as stated, fails: with invocations of 31 seconds against the 30
    seconds of the local analysis, no entry of the step is an error. *)
Lemma C9_timeout_is_not_enforced :
  ~ timeout_enforced (fun _ => 31%Z) (init (Some calm_swarm)) local_analysis
      (make_results sample_trigger []).
Proof.
  intros H.
  specialize (H (agents calm_swarm) "pune" agent_low eq_refl
                (or_introl eq_refl) eq_refl).
  cbn in H. destruct H as (entries & entry & He & Hl & Herr).
  injection He as <-. cbn in Hl. injection Hl as <-. discriminate Herr.
Qed.

Lemma lookup_entry action context : forall ags id agent,
  NoDup (map fst ags) -> In (id, agent) ags ->
  lookup id (map (fun x => (fst x, agent_entry (snd x) action context)) ags) =
  Some (agent_entry agent action context).
Proof.
  induction ags as [| [id' agent'] rest IH]; intros id agent Hnd Hin;
    [destruct Hin |].
  inversion Hnd as [| ? ? Hnotin Hnd']; subst. simpl.
  destruct Hin as [E | Hin].
  - injection E as -> ->. now rewrite String.eqb_refl.
  - destruct (String.eqb_spec id id') as [-> | Hne].
    + exfalso. apply Hnotin. change id' with (fst (id', agent)).
      now apply in_map.
    + now apply IH.
Qed.

(** C9, amended: the timeout of a step is never consulted.  Executing a step
    gives the same outcome under every timeout, and a whole run gives the
    same report when the timeouts of its steps are replaced at will; no
    invocation is bounded or turned into an error for its duration.  What
    does hold is the isolation: in a parallel step over agents with distinct
    ids each agent has its own entry, which is an error entry exactly when
    the invocation on that agent raises, whatever the other agents do. *)
Theorem C9_timeout_is_never_consulted :
  forall (orch : option Orchestrator) (todo : list WorkflowStep)
         (trigger_data : value),
    (forall step t context,
        _execute_step (mkWorkflow orch todo) (with_timeout step t) context =
        _execute_step (mkWorkflow orch todo) step context) /\
    (forall f : WorkflowStep -> Z,
        execute (mkWorkflow orch (map (fun s => with_timeout s (f s)) todo))
          trigger_data =
        execute (mkWorkflow orch todo) trigger_data) /\
    (forall action context ags id agent,
        NoDup (map fst ags) -> In (id, agent) ags ->
        lookup id (parallel_loop ags action context []) =
          Some (agent_entry agent action context) /\
        is_error (agent_entry agent action context) =
          raises (_execute_agent_action agent action context)).
Proof.
  intros orch todo trigger_data. split; [| split].
  - intros step t context. apply execute_step_any_timeout.
  - intros f. unfold execute. cbn [orchestrator steps].
    destruct orch as [o |]; [| reflexivity].
    now rewrite (run_steps_any_timeout (Some o) f _ todo).
  - intros action context ags id agent Hnd Hin. split.
    + rewrite parallel_loop_entries by exact Hnd.
      now apply lookup_entry.
    + apply agent_entry_is_error.
Qed.

(** C9 on the local analysis over three agents: the unreadable agent has an
    error entry, the agent after it a result. *)
Lemma C9_witness :
  lookup "nagpur"
    (parallel_loop (agents faulty_swarm) "analyze_symptoms"
       (make_results sample_trigger []) []) =
  Some (VDict [("action", VStr "analyze_symptoms");
               ("risk_level", VStr "critical")]) /\
  is_error (agent_entry agent_broken "analyze_symptoms"
              (make_results sample_trigger [])) = true.
Proof.
  assert (Hnd : NoDup (map fst (agents faulty_swarm))).
  { simpl. repeat constructor; simpl; intuition discriminate. }
  split.
  - apply (proj2 (proj2 (C9_timeout_is_never_consulted
                           (Some faulty_swarm) _define_steps sample_trigger))
             "analyze_symptoms" (make_results sample_trigger [])
             (agents faulty_swarm) "nagpur" agent_critical Hnd).
    simpl. tauto.
  - apply (proj2 (proj2 (C9_timeout_is_never_consulted
                           (Some faulty_swarm) _define_steps sample_trigger))
             "analyze_symptoms" (make_results sample_trigger [])
             (agents faulty_swarm) "nashik" agent_broken Hnd).
    simpl. tauto.
Defined.

(** * Further properties of the workflow *)

(** ** Selection by belief *)

Section MaxBelief.







(** The first belief that cannot be read ends the scan with its exception. *)
Lemma max_scan_unreadable : forall pre best bk x post e,
  (forall y, In y pre -> raises (outbreak_belief (snd y)) = false) ->
  outbreak_belief (snd x) = Raise e ->
  max_scan best bk (pre ++ x :: post) = Raise e.
Proof.
  induction pre as [| y pre IH]; intros best bk x post e Hpre Hx;
    cbn [app max_scan].
  - now rewrite Hx.
  - assert (Hy := Hpre y (or_introl eq_refl)).
    destruct (outbreak_belief (snd y)) as [k | ?]; [| discriminate].
    cbn [bind].
    destruct (belief_gt k bk); apply IH; try assumption;
      intros z Hz; apply Hpre; now right.
Qed.

End MaxBelief.



(** X2: the max-belief strategy reads the belief of every agent in registry
    order; the first belief that cannot be read makes the selection raise
    that very exception, whatever the other beliefs are. *)
Theorem X2_max_belief_unreadable_raises :
  forall (self : OutbreakDetectionWorkflow) (orch : Orchestrator)
         (step : WorkflowStep) (pre post : list (string * Agent))
         (x : string * Agent) (e : exn),
    orchestrator self = Some orch ->
    selector_is step "max_outbreak_belief" = true ->
    agents orch = pre ++ x :: post ->
    (forall y, In y pre -> raises (outbreak_belief (snd y)) = false) ->
    outbreak_belief (snd x) = Raise e ->
    _select_agents self step = Raise e.
Proof.
  intros self orch step pre post x e Ho Hsel Hags Hpre Hx.
  unfold _select_agents. rewrite Ho, Hsel, Hags. cbv zeta.
  destruct pre as [| y pre]; cbn [app max_by_belief].
  - now rewrite Hx.
  - assert (Hy := Hpre y (or_introl eq_refl)).
    destruct (outbreak_belief (snd y)) as [k | ?]; [| discriminate].
    cbn [bind]. rewrite (@max_scan_unreadable pre y k x post e); auto.
    intros z Hz. apply Hpre. now right.
Qed.

Lemma X2_witness :
  _select_agents (init (Some unreadable_swarm)) consensus_proposal =
  Raise (mkExn AttributeError "no belief").
Proof.
  apply (@X2_max_belief_unreadable_raises _ unreadable_swarm
           consensus_proposal [("pune", agent_critical)]
           [("nagpur", agent_low)] ("nashik", agent_without_belief)).
  - reflexivity.
  - reflexivity.
  - reflexivity.
  - intros y [<- | []]. reflexivity.
  - reflexivity.
Defined.

(** ** Invariants of the step results *)

Lemma shape_no_consensus r :
  outcome_shape r -> lookup "consensus_reached" r = None.
Proof.
  intros [reason | entries | r' (_ & _ & _ & H) |]; try reflexivity. exact H.
Qed.

Lemma no_consensus_recorded_set sr k d :
  no_consensus_recorded sr ->
  lookup "consensus_reached" d = None ->
  no_consensus_recorded (dict_set sr k (VDict d)).
Proof.
  intros Hsr Hd k' v Hl.
  destruct (String.eqb_spec k' k) as [-> | Hne].
  - rewrite lookup_dict_set_same in Hl. injection Hl as <-.
    exists d. now split.
  - rewrite lookup_dict_set_other in Hl by assumption. exact (Hsr _ _ Hl).
Qed.

(** On such step results the consensus predicate is false. *)
Lemma consensus_condition_false c td sr :
  no_consensus_recorded sr ->
  str_contains anomaly_predicate c = false ->
  str_contains consensus_predicate c = true ->
  _evaluate_condition c (make_results td sr) = Ok (VBool false).
Proof.
  intros Hsr Ha Hc. unfold _evaluate_condition.
  unfold anomaly_predicate in Ha. unfold consensus_predicate in Hc.
  rewrite Ha, Hc. cbn. unfold dict_get at 1.
  destruct (lookup "voting" sr) as [v |] eqn:Ev; [| reflexivity].
  destruct (Hsr _ _ Ev) as (d & -> & Hd). cbn. unfold dict_get.
  now rewrite Hd.
Qed.

Lemma consensus_step_skipped self step c td sr :
  no_consensus_recorded sr ->
  condition step = Some c ->
  str_contains anomaly_predicate c = false ->
  str_contains consensus_predicate c = true ->
  _execute_step self step (make_results td sr) =
  Ok (skipped ("Condition not met: " ++ c)).
Proof.
  intros Hsr Hcond Ha Hc.
  unfold _execute_step, condition_fails. rewrite Hcond.
  assert (Ht : truthy (VStr c) = true).
  { destruct c; [discriminate Hc | reflexivity]. }
  rewrite Ht, (@consensus_condition_false c td sr Hsr Ha Hc). reflexivity.
Qed.

Section RunInvariants.

Variables (self : OutbreakDetectionWorkflow) (trigger_data : value).

Lemma run_steps_no_consensus : forall todo sr,
  no_consensus_recorded sr ->
  no_consensus_recorded (run_steps self todo trigger_data sr).
Proof.
  induction todo as [| step rest IH]; intros sr Hsr; [exact Hsr |].
  destruct (run_steps_cons self trigger_data step rest sr)
    as [(r & _ & Hsh & [(_ & ->) | (_ & ->)]) | (e & _ & ->)].
  - apply IH, no_consensus_recorded_set; [exact Hsr |].
    now apply shape_no_consensus.
  - apply no_consensus_recorded_set; [exact Hsr |].
    now apply shape_no_consensus.
  - now apply no_consensus_recorded_set.
Qed.

Lemma run_steps_consensus_skipped : forall todo sr s c outcome,
  no_consensus_recorded sr ->
  NoDup (map name todo) ->
  (forall x, In x todo -> lookup (name x) sr = None) ->
  In s todo ->
  condition s = Some c ->
  str_contains anomaly_predicate c = false ->
  str_contains consensus_predicate c = true ->
  lookup (name s) (run_steps self todo trigger_data sr) = Some outcome ->
  outcome = VDict (skipped ("Condition not met: " ++ c)).
Proof.
  induction todo as [| step rest IH];
    intros sr s c outcome Hsr Hnd Hfresh Hin Hcond Ha Hc Hrec;
    [destruct Hin |].
  cbn [map] in Hnd. inversion Hnd as [| ? ? Hnotin Hnd']; subst.
  destruct Hin as [-> | Hin].
  - pose proof (@consensus_step_skipped self s c trigger_data sr Hsr Hcond
                  Ha Hc) as Hstep.
    rewrite (@run_steps_step_ok self s rest trigger_data sr _ Hstep eq_refl)
      in Hrec.
    rewrite run_steps_frame, lookup_dict_set_same in Hrec by assumption.
    now injection Hrec as <-.
  - assert (Hne : name s <> name step).
    { intros E. apply Hnotin. rewrite <- E. now apply in_map. }
    destruct (run_steps_cons self trigger_data step rest sr)
      as [(r & _ & Hsh & [(_ & E) | (_ & E)]) | (e & _ & E)];
      rewrite E in Hrec.
    + apply (IH (dict_set sr (name step) (VDict r)) s c outcome);
        try assumption.
      * apply no_consensus_recorded_set; [exact Hsr |].
        now apply shape_no_consensus.
      * intros x Hx. rewrite lookup_dict_set_other.
        -- apply Hfresh. now right.
        -- intros Ex. apply Hnotin. rewrite <- Ex. now apply in_map.
    + rewrite lookup_dict_set_other in Hrec by assumption.
      rewrite Hfresh in Hrec by (now right). discriminate.
    + rewrite lookup_dict_set_other in Hrec by assumption.
      rewrite Hfresh in Hrec by (now right). discriminate.
Qed.

(** Every recorded value is a dict of one of the known shapes. *)
Lemma run_steps_values : forall todo sr,
  (forall e, In e sr ->
     exists d, snd e = VDict d /\ (outcome_shape d \/ raised_outcome d)) ->
  forall e, In e (run_steps self todo trigger_data sr) ->
     exists d, snd e = VDict d /\ (outcome_shape d \/ raised_outcome d).
Proof.
  induction todo as [| step rest IH]; intros sr Hsr; [exact Hsr |].
  assert (Hset : forall d, outcome_shape d \/ raised_outcome d ->
            forall e, In e (dict_set sr (name step) (VDict d)) ->
            exists d', snd e = VDict d' /\
                       (outcome_shape d' \/ raised_outcome d')).
  { intros d Hd e He. apply in_dict_set in He.
    destruct He as [He | ->]; [now apply Hsr | exists d; now split]. }
  destruct (run_steps_cons self trigger_data step rest sr)
    as [(r & _ & Hsh & [(_ & ->) | (_ & ->)]) | (e & _ & ->)].
  - apply IH, Hset. now left.
  - apply Hset. now left.
  - apply Hset. right. now exists (str e).
Qed.

(** With distinct names the recorded names are those of a prefix of the
    steps, in the order of the steps. *)
Lemma run_steps_keys_prefix : forall todo sr,
  NoDup (map name todo) ->
  (forall x, In x todo -> lookup (name x) sr = None) ->
  exists n, (n <= List.length todo)%nat /\
    (todo <> [] -> (1 <= n)%nat) /\
    keys (run_steps self todo trigger_data sr) =
    keys sr ++ map name (firstn n todo).
Proof.
  induction todo as [| step rest IH]; intros sr Hnd Hfresh.
  - exists 0%nat. cbn. rewrite app_nil_r. repeat split; [lia | congruence].
  - cbn [map] in Hnd. inversion Hnd as [| ? ? Hnotin Hnd']; subst.
    assert (Hhead : lookup (name step) sr = None)
      by (apply Hfresh; now left).
    assert (Hkeys : forall v, keys (dict_set sr (name step) v) =
                              keys sr ++ [name step]).
    { intros v. rewrite dict_set_fresh by assumption.
      unfold keys. now rewrite map_app. }
    assert (Hone : exists n, (n <= List.length (step :: rest))%nat /\
              (step :: rest <> [] -> (1 <= n)%nat) /\
              keys sr ++ [name step] =
              keys sr ++ map name (firstn n (step :: rest))).
    { exists 1%nat. cbn. repeat split; lia. }
    destruct (run_steps_cons self trigger_data step rest sr)
      as [(r & _ & Hsh & [(_ & ->) | (_ & ->)]) | (e & _ & ->)].
    + destruct (IH (dict_set sr (name step) (VDict r)) Hnd')
        as (n & Hn & _ & Hk).
      * intros x Hx. rewrite lookup_dict_set_other.
        -- apply Hfresh. now right.
        -- intros Ex. apply Hnotin. rewrite <- Ex. now apply in_map.
      * exists (S n). cbn [firstn map List.length].
        rewrite Hk, Hkeys, <- app_assoc. repeat split; [lia | lia].
    + rewrite Hkeys. exact Hone.
    + rewrite Hkeys. exact Hone.
Qed.

End RunInvariants.

Lemma lookup_In k v : forall d : pydict, lookup k d = Some v -> In (k, v) d.
Proof.
  induction d as [| [k' v'] d' IH]; simpl; [discriminate |].
  destruct (String.eqb_spec k k') as [-> | Hne].
  - intros E; injection E as ->. now left.
  - intros H. right. now apply IH.
Qed.

Lemma no_consensus_recorded_nil : no_consensus_recorded [].
Proof. intros k v H. discriminate H. Qed.

(** X3: in every workflow with distinct step names, a step whose
    precondition contains the consensus predicate (and not the anomaly
    predicate) is, whenever it is recorded, recorded as skipped for its
    condition: no outcome the executor records has a top-level
    ["consensus_reached"] key, so the predicate is false in every run. *)
Theorem X3_consensus_steps_always_skipped :
  forall (self : OutbreakDetectionWorkflow) (trigger_data : value)
         (s : WorkflowStep) (c : string) (outcome : value),
    NoDup (map name (steps self)) ->
    In s (steps self) ->
    condition s = Some c ->
    str_contains anomaly_predicate c = false ->
    str_contains consensus_predicate c = true ->
    recorded self trigger_data (name s) = Some outcome ->
    outcome = VDict (skipped ("Condition not met: " ++ c)).
Proof.
  intros self trigger_data s c outcome Hnd Hin Hcond Ha Hc Hrec.
  destruct (orchestrator self) as [orch |] eqn:Ho.
  2: { rewrite recorded_unconfigured in Hrec by assumption. discriminate. }
  rewrite (recorded_configured _ _ _ Ho) in Hrec.
  eapply run_steps_consensus_skipped with (sr := []); eauto.
  apply no_consensus_recorded_nil.
Qed.

Lemma X3_witness :
  recorded short_workflow sample_trigger "quantum_escalation" =
  Some (VDict (skipped ("Condition not met: " ++ "consensus_reached == true"))).
Proof.
  rewrite <- (@X3_consensus_steps_always_skipped short_workflow sample_trigger
                escalation_after_voting "consensus_reached == true"
                (VDict (skipped "Condition not met: consensus_reached == true"))).
  - reflexivity.
  - simpl. repeat constructor; simpl; intuition discriminate.
  - simpl. tauto.
  - reflexivity.
  - reflexivity.
  - reflexivity.
  - reflexivity.
Defined.

(** X4: in a configured workflow with distinct step names, the names
    recorded in the report are those of a prefix of the step list, in the
    order of the list; when the workflow has a step, the first step is
    always among them. *)
Theorem X4_recorded_names_are_a_prefix :
  forall (self : OutbreakDetectionWorkflow) (orch : Orchestrator)
         (trigger_data : value),
    orchestrator self = Some orch ->
    NoDup (map name (steps self)) ->
    exists (n : nat) (report sr : pydict),
      execute self trigger_data = Ok report /\
      lookup "step_results" report = Some (VDict sr) /\
      (n <= List.length (steps self))%nat /\
      (steps self <> [] -> (1 <= n)%nat) /\
      keys sr = map name (firstn n (steps self)).
Proof.
  intros self orch trigger_data Ho Hnd.
  destruct (@run_steps_keys_prefix self trigger_data (steps self) [] Hnd)
    as (n & Hn & Hone & Hk); [reflexivity |].
  exists n. unfold execute. rewrite Ho.
  eexists. eexists. split; [reflexivity |]. split; [reflexivity |].
  repeat split; assumption.
Qed.

Lemma X4_witness :
  exists (n : nat) (report sr : pydict),
    execute (init (Some empty_swarm)) sample_trigger = Ok report /\
    lookup "step_results" report = Some (VDict sr) /\
    (n <= 6)%nat /\
    (_define_steps <> [] -> (1 <= n)%nat) /\
    keys sr = map name (firstn n _define_steps).
Proof.
  apply (@X4_recorded_names_are_a_prefix (init (Some empty_swarm))
           empty_swarm sample_trigger eq_refl).
  simpl. repeat constructor; simpl; intuition discriminate.
Defined.

(** X5: whatever the workflow, every outcome recorded in a report is a
    dict of one of five shapes: a skip, the parallel results, the result of
    an action (without any of the executor's own keys), the failure "No
    agent selected", or the single field ["error"] with the message of an
    exception. *)
Theorem X5_recorded_outcomes_have_a_shape :
  forall (self : OutbreakDetectionWorkflow) (trigger_data : value)
         (k : string) (v : value),
    recorded self trigger_data k = Some v ->
    exists d, v = VDict d /\ (outcome_shape d \/ raised_outcome d).
Proof.
  intros self trigger_data k v Hrec.
  destruct (orchestrator self) as [orch |] eqn:Ho.
  2: { rewrite recorded_unconfigured in Hrec by assumption. discriminate. }
  rewrite (recorded_configured _ _ _ Ho) in Hrec.
  apply lookup_In in Hrec.
  destruct (@run_steps_values self trigger_data (steps self) []
              (fun e (H : In e []) => match H with end) _ Hrec)
    as (d & Hd & Hshape).
  exists d. split; assumption.
Qed.

Lemma X5_witness :
  exists d,
    VDict [("error", VStr "max() arg is an empty sequence")] = VDict d /\
    (outcome_shape d \/ raised_outcome d).
Proof.
  apply (@X5_recorded_outcomes_have_a_shape (init (Some empty_swarm))
           sample_trigger "consensus_proposal").
  reflexivity.
Defined.

(** ** Actions, the trigger payload and the built-in run *)

(** X6: an action raises only when it is the symptom analysis and the
    agent's risk level cannot be read; every other action, known or not,
    returns.  A result names its action and has no ["error"] key, and it
    does not depend on the report the action is handed. *)
Theorem X6_only_symptom_analysis_can_raise :
  forall (agent : Agent) (action : string) (context : pydict),
    (raises (_execute_agent_action agent action context) = true <->
     action = "analyze_symptoms" /\ raises (risk_level agent) = true) /\
    (forall r, _execute_agent_action agent action context = Ok r ->
               lookup "action" r = Some (VStr action) /\
               lookup "error" r = None) /\
    (forall context',
        _execute_agent_action agent action context' =
        _execute_agent_action agent action context).
Proof.
  intros agent action context. split; [| split].
  - unfold _execute_agent_action.
    destruct (String.eqb_spec action "analyze_symptoms") as [-> | Hne].
    + destruct (risk_level agent); simpl; split; intuition congruence.
    + repeat match goal with
             | |- context [if ?b then _ else _] => destruct b
             end; simpl; split; intuition congruence.
  - intros r Hr. split.
    + eapply execute_agent_action_names_action; eauto.
    + now destruct (execute_agent_action_plain _ _ _ Hr).
  - reflexivity.
Qed.

Lemma X6_witness :
  raises (_execute_agent_action agent_broken "analyze_symptoms" []) = true /\
  lookup "action" [("action", VStr "restart"); ("status", VStr "completed")]
    = Some (VStr "restart").
Proof.
  split.
  - apply (proj1 (X6_only_symptom_analysis_can_raise agent_broken
                    "analyze_symptoms" [])).
    split; reflexivity.
  - apply (proj1 (proj2 (X6_only_symptom_analysis_can_raise agent_broken
                           "restart" []))
             [("action", VStr "restart"); ("status", VStr "completed")]).
    reflexivity.
Defined.

(** The trigger payload is never read. *)
Lemma missing_dependency_any_trigger td1 td2 sr : forall deps,
  missing_dependency deps (make_results td1 sr) =
  missing_dependency deps (make_results td2 sr).
Proof.
  induction deps as [| dep rest IH]; [reflexivity |].
  cbn [missing_dependency]. 
  change (dict_get (make_results td1 sr) "step_results" (VDict []))
    with (VDict sr).
  change (dict_get (make_results td2 sr) "step_results" (VDict []))
    with (VDict sr).
  now rewrite IH.
Qed.

Lemma execute_step_any_trigger self step td1 td2 sr :
  _execute_step self step (make_results td1 sr) =
  _execute_step self step (make_results td2 sr).
Proof.
  unfold _execute_step.
  assert (Hc : condition_fails step (make_results td1 sr) =
               condition_fails step (make_results td2 sr)) by reflexivity.
  rewrite Hc.
  destruct (condition_fails step (make_results td2 sr)) as [[|] | e];
    cbn [bind]; try reflexivity.
  assert (Hr : run_action self step (make_results td1 sr) =
               run_action self step (make_results td2 sr)).
  { unfold run_action.
    destruct (_select_agents self step) as [ags | e]; [| reflexivity].
    cbn [bind].
    now rewrite (parallel_loop_any_context (agent_action step)
                   (make_results td1 sr) (make_results td2 sr)). }
  rewrite Hr.
  destruct (depends_on step) as [deps |]; [| reflexivity].
  destruct (nonempty deps); [| reflexivity].
  now rewrite (missing_dependency_any_trigger td1 td2).
Qed.

Lemma run_steps_any_trigger self td1 td2 : forall todo sr,
  run_steps self todo td1 sr = run_steps self todo td2 sr.
Proof.
  induction todo as [| step rest IH]; intros sr; [reflexivity |].
  cbn [run_steps]. rewrite (execute_step_any_trigger self step td1 td2).
  destruct (_execute_step self step (make_results td2 sr)) as [r | e];
    [| reflexivity].
  destruct (_should_continue step r); [apply IH | reflexivity].
Qed.

(** X7: the step results of a run do not depend on the trigger payload: two
    runs of the same workflow on different payloads record the same
    outcomes, and the payload only reappears in the ["trigger_data"] field
    of the report. *)
Theorem X7_step_results_ignore_trigger :
  forall (self : OutbreakDetectionWorkflow) (td1 td2 : value),
    (forall k, recorded self td1 k = recorded self td2 k) /\
    (forall orch,
        orchestrator self = Some orch ->
        exists sr,
          execute self td1 = Ok (make_results td1 sr) /\
          execute self td2 = Ok (make_results td2 sr)).
Proof.
  intros self td1 td2. split.
  - intros k. destruct (orchestrator self) as [orch |] eqn:Ho.
    + rewrite !(recorded_configured _ _ _ Ho).
      now rewrite (run_steps_any_trigger self td1 td2).
    + now rewrite !recorded_unconfigured.
  - intros orch Ho. unfold execute. rewrite Ho.
    exists (run_steps self (steps self) td2 []).
    now rewrite (run_steps_any_trigger self td1 td2).
Qed.

Lemma X7_witness :
  exists sr,
    execute (init (Some alarmed_swarm)) VNone = Ok (make_results VNone sr) /\
    execute (init (Some alarmed_swarm)) sample_trigger =
      Ok (make_results sample_trigger sr).
Proof.
  apply (proj2 (X7_step_results_ignore_trigger (init (Some alarmed_swarm))
                  VNone sample_trigger) alarmed_swarm).
  reflexivity.
Defined.

(** X8: the report of the built-in workflow in closed form.  The first
    three steps are always recorded and never as failures; the run then
    records either the failed consensus proposal alone (four steps, when
    the max-belief selection raises) or the proposal, the vote and the
    skipped escalation (six steps). *)
Theorem X8_builtin_report :
  forall (orch : Orchestrator) (trigger_data : value),
    execute (init (Some orch)) trigger_data =
      Ok (make_results trigger_data (builtin_step_results (agents orch))) /\
    List.length (builtin_step_results (agents orch)) =
      (if raises (max_by_belief (agents orch)) then 4 else 6)%nat /\
    (forall k,
        In k ["local_analysis"; "neighbor_consultation";
              "collective_reasoning"] ->
        exists v, recorded (init (Some orch)) trigger_data k = Some v /\
                  is_error v = false).
Proof.
  intros orch trigger_data. split; [| split].
  - unfold execute. cbn [orchestrator init steps].
    now rewrite builtin_walk.
  - unfold builtin_step_results.
    destruct (max_by_belief (agents orch)); reflexivity.
  - intros k Hk. rewrite recorded_builtin. unfold builtin_step_results.
    destruct Hk as [<- | [<- | [<- | []]]];
      cbn [before_proposal app lookup String.eqb Ascii.eqb Bool.eqb];
      eexists; (split; [reflexivity |]); try reflexivity.
    destruct (existsb _ _); reflexivity.
Qed.

Lemma X8_witness :
  exists v,
    recorded (init (Some faulty_swarm)) sample_trigger "local_analysis"
      = Some v /\ is_error v = false.
Proof.
  apply (proj2 (proj2 (X8_builtin_report faulty_swarm sample_trigger))).
  simpl. tauto.
Defined.

Lemma entries_for_distinct ags action :
  NoDup (map fst ags) ->
  entries_for ags action =
  map (fun x => (fst x, agent_entry (snd x) action [])) ags.
Proof.
  intros Hnd. unfold entries_for.
  now rewrite parallel_loop_entries.
Qed.

Lemma reports_high_risk_entry agent :
  reports_high_risk (agent_entry agent "analyze_symptoms" []) =
  high_risk_agent agent.
Proof.
  unfold agent_entry, _execute_agent_action, high_risk_agent.
  cbn [String.eqb Ascii.eqb Bool.eqb].
  destruct (risk_level agent); reflexivity.
Qed.

(** X9: in a run of the built-in workflow over agents with distinct ids,
    the neighbor consultation is executed, on every agent, exactly when the
    risk level of some agent reads "high" or "critical"; otherwise it is
    skipped for its condition.  An agent whose risk level cannot be read
    counts as no anomaly. *)
Theorem X9_neighbor_consultation_iff_high_risk :
  forall (orch : Orchestrator) (trigger_data : value),
    NoDup (map fst (agents orch)) ->
    recorded (init (Some orch)) trigger_data "neighbor_consultation" =
    Some (if existsb (fun x => high_risk_agent (snd x)) (agents orch)
          then parallel_outcome (agents orch) "query_neighbors"
          else VDict (skipped "Condition not met: anomaly_detected == true")).
Proof.
  intros orch trigger_data Hnd. rewrite recorded_builtin.
  unfold builtin_step_results.
  cbn [before_proposal app lookup String.eqb Ascii.eqb Bool.eqb].
  assert (Hb : existsb (fun e => reports_high_risk (snd e))
                 (entries_for (agents orch) "analyze_symptoms") =
               existsb (fun x => high_risk_agent (snd x)) (agents orch)).
  { rewrite entries_for_distinct by exact Hnd. rewrite existsb_map.
    clear Hnd. cbn [snd].
    induction (agents orch) as [| x rest IH]; [reflexivity |].
    cbn [existsb]. now rewrite reports_high_risk_entry, IH. }
  now rewrite Hb.
Qed.

Lemma X9_witness :
  recorded (init (Some alarmed_swarm)) sample_trigger "neighbor_consultation"
  = Some (parallel_outcome (agents alarmed_swarm) "query_neighbors").
Proof.
  apply (X9_neighbor_consultation_iff_high_risk alarmed_swarm sample_trigger).
  simpl. repeat constructor; simpl; intuition discriminate.
Defined.

(** * Hidden sources *)

Section ConnectionCounts.

Lemma count_get_set_same cc v c : count_get (count_set cc v c) v = c.
Proof.
  induction cc as [| [v' c'] cc IH]; simpl.
  - now rewrite String.eqb_refl.
  - destruct (String.eqb v v') eqn:E; simpl.
    + now rewrite String.eqb_refl.
    + now rewrite E.
Qed.

Lemma count_get_set_other cc v c w :
  w <> v -> count_get (count_set cc v c) w = count_get cc w.
Proof.
  intros Hne. apply String.eqb_neq in Hne.
  induction cc as [| [v' c'] cc IH]; simpl.
  - now rewrite Hne.
  - destruct (String.eqb v v') eqn:E; simpl.
    + apply String.eqb_eq in E. subst v'. now rewrite Hne.
    + now rewrite IH.
Qed.

Lemma count_set_keys cc v c w :
  In w (map fst (count_set cc v c)) <-> In w (map fst cc) \/ w = v.
Proof.
  induction cc as [| [v' c'] cc IH]; simpl.
  - intuition.
  - destruct (String.eqb_spec v v') as [-> | Hne]; simpl.
    + intuition.
    + rewrite IH. intuition.
Qed.

Lemma count_set_NoDup cc v c :
  NoDup (map fst cc) -> NoDup (map fst (count_set cc v c)).
Proof.
  induction cc as [| [v' c'] cc IH]; simpl; intros Hnd.
  - repeat constructor. intros [].
  - inversion Hnd as [| ? ? Hnotin Hnd']; subst.
    destruct (String.eqb_spec v v') as [-> | Hne]; simpl.
    + now constructor.
    + constructor; [| now apply IH].
      rewrite count_set_keys. intros [H | H]; [contradiction | congruence].
Qed.

Lemma bump_get cc v w :
  count_get (bump cc v) w =
  (count_get cc w + if string_dec v w then 1 else 0)%nat.
Proof.
  unfold bump. destruct (string_dec v w) as [-> | Hne].
  - now rewrite count_get_set_same.
  - rewrite count_get_set_other by congruence. lia.
Qed.

(** After the first loop the count of a village is the number of link ends
    that carry its name, on top of what was there. *)
Lemma count_connections_get : forall links cc w,
  count_get (count_connections links cc) w =
  (count_get cc w + end_count links w)%nat.
Proof.
  unfold end_count.
  induction links as [| link rest IH]; intros cc w.
  - cbn. lia.
  - change (link_ends (link :: rest))
      with (from_village link :: to_village link :: link_ends rest).
    cbn [count_connections count_occ]. rewrite IH, !bump_get.
    destruct (string_dec (from_village link) w);
      destruct (string_dec (to_village link) w); lia.
Qed.

Lemma count_connections_NoDup : forall links cc,
  NoDup (map fst cc) -> NoDup (map fst (count_connections links cc)).
Proof.
  induction links as [| link rest IH]; intros cc Hnd; cbn; [exact Hnd |].
  apply IH. unfold bump. now repeat apply count_set_NoDup.
Qed.

(** In a dict every item is what [get] finds under its key, and a key with
    a positive count is a key of the dict. *)
Lemma count_get_item cc v c :
  NoDup (map fst cc) -> In (v, c) cc -> count_get cc v = c.
Proof.
  induction cc as [| [v' c'] cc IH]; simpl; intros Hnd Hin; [destruct Hin |].
  inversion Hnd as [| ? ? Hnotin Hnd']; subst.
  destruct Hin as [E | Hin].
  - injection E as -> ->. now rewrite String.eqb_refl.
  - destruct (String.eqb_spec v v') as [-> | Hne]; [| now apply IH].
    exfalso. apply Hnotin. change v' with (fst (v', c)). now apply in_map.
Qed.

Lemma count_get_positive cc v :
  (0 < count_get cc v)%nat -> In (v, count_get cc v) cc.
Proof.
  induction cc as [| [v' c'] cc IH]; simpl; intros H; [lia |].
  destruct (String.eqb_spec v v') as [-> | Hne]; [now left |].
  right. now apply IH.
Qed.

(** The second loop with at least one village: the items with a count of
    two or more, in order. *)
Lemma collect_sources_some items n :
  collect_sources items (S n) =
  Sources (map (fun item => mkSource (fst item) (snd item)
                              (MinOneQuotient (snd item) (S n)))
             (filter (fun item => Nat.leb 2 (snd item)) items)).
Proof.
  induction items as [| [village count] rest IH]; [reflexivity |].
  cbn [collect_sources filter snd fst].
  destruct (Nat.leb 2 count); [| exact IH].
  now rewrite IH.
Qed.

(** Without villages it raises at the first such item. *)
Lemma collect_sources_none items :
  collect_sources items 0 =
  if existsb (fun item => Nat.leb 2 (snd item)) items
  then ZeroDivisionError else Sources [].
Proof.
  induction items as [| [village count] rest IH]; [reflexivity |].
  cbn [collect_sources existsb snd].
  destruct (Nat.leb 2 count); [reflexivity | exact IH].
Qed.

End ConnectionCounts.

(** X10: when the function returns, the sources it lists are exactly the
    villages that occur at least twice among the ends of the links, each
    listed once, with the number of its occurrences as connection count; a
    link from a village to itself counts twice.  The confidence of a source
    is computed from that count and the number of villages. *)
Theorem X10_hidden_sources_are_the_hubs :
  forall (causal_links : list CausalLink) (village_data : list value)
         (sources : list HiddenSource),
    _identify_hidden_sources causal_links village_data = Sources sources ->
    NoDup (map location sources) /\
    (forall s, In s sources ->
        connection_count s = end_count causal_links (location s) /\
        (2 <= connection_count s)%nat /\
        source_confidence s =
          MinOneQuotient (connection_count s) (List.length village_data)) /\
    (forall v, (2 <= end_count causal_links v)%nat ->
               In v (map location sources)).
Proof.
  intros causal_links village_data sources.
  unfold _identify_hidden_sources.
  set (cc := count_connections causal_links []).
  assert (Hnd : NoDup (map fst cc)).
  { apply count_connections_NoDup. constructor. }
  assert (Hget : forall w, count_get cc w = end_count causal_links w).
  { intros w. unfold cc. now rewrite count_connections_get. }
  destruct (List.length village_data) as [| n] eqn:Hn.
  - rewrite collect_sources_none.
    destruct (existsb _ cc) eqn:Hex; [discriminate |].
    intros E; injection E as <-.
    split; [constructor |]. split; [intros s [] |].
    intros v Hv. exfalso.
    assert (Hin : In (v, count_get cc v) cc).
    { apply count_get_positive. rewrite Hget. lia. }
    assert (Htrue : existsb (fun item => Nat.leb 2 (snd item)) cc = true).
    { apply existsb_exists. exists (v, count_get cc v).
      split; [exact Hin |]. change (Nat.leb 2 (count_get cc v) = true). apply Nat.leb_le. rewrite Hget. exact Hv. }
    congruence.
  - rewrite collect_sources_some. intros E; injection E as <-.
    split; [| split].
    + rewrite map_map. cbn [location].
      assert (Hf : forall l : counts, NoDup (map fst l) ->
                NoDup (map fst (filter (fun item => Nat.leb 2 (snd item)) l))).
      { induction l as [| x l IH]; intros Hl; [constructor |].
        inversion Hl as [| ? ? Hnotin Hl']; subst. cbn [filter].
        destruct (Nat.leb 2 (snd x)); [| now apply IH].
        cbn [map]. constructor; [| now apply IH].
        intros Hin. apply Hnotin.
        apply in_map_iff in Hin. destruct Hin as (y & Hy & Hin).
        apply filter_In in Hin. rewrite <- Hy. apply in_map, Hin. }
      now apply Hf.
    + intros s Hs. apply in_map_iff in Hs.
      destruct Hs as ([v c] & <- & Hin). apply filter_In in Hin.
      destruct Hin as (Hin & Hle).
      change (Nat.leb 2 c = true) in Hle. apply Nat.leb_le in Hle.
      cbn [snd fst location connection_count source_confidence].
      rewrite <- Hget, (@count_get_item cc _ _ Hnd Hin).
      split; [reflexivity |]. split; [exact Hle | reflexivity].
    + intros v Hv. rewrite map_map. cbn [location].
      apply in_map_iff. exists (v, count_get cc v). split; [reflexivity |].
      apply filter_In. split.
      * apply count_get_positive. rewrite Hget. lia.
      * change (Nat.leb 2 (count_get cc v) = true). apply Nat.leb_le. rewrite Hget. exact Hv.
Qed.

Lemma X10_witness :
  NoDup (map location [mkSource "Rampur" 2 (MinOneQuotient 2 3)]) /\
  (forall s, In s [mkSource "Rampur" 2 (MinOneQuotient 2 3)] ->
      connection_count s = end_count hub_links (location s) /\
      (2 <= connection_count s)%nat /\
      source_confidence s = MinOneQuotient (connection_count s) 3) /\
  (forall v, (2 <= end_count hub_links v)%nat ->
             In v (map location [mkSource "Rampur" 2 (MinOneQuotient 2 3)])).
Proof.
  apply (@X10_hidden_sources_are_the_hubs hub_links three_villages).
  reflexivity.
Defined.

(** X11: the function raises [ZeroDivisionError] exactly when the village
    data is empty and some village occurs at least twice among the ends of
    the links; without links it returns the empty list, whatever the
    village data. *)
Theorem X11_hidden_sources_zero_division :
  forall (causal_links : list CausalLink) (village_data : list value),
    (_identify_hidden_sources causal_links village_data = ZeroDivisionError
     <-> village_data = [] /\
         exists v, (2 <= end_count causal_links v)%nat) /\
    _identify_hidden_sources [] village_data = Sources [].
Proof.
  intros causal_links village_data. split; [| reflexivity].
  unfold _identify_hidden_sources.
  set (cc := count_connections causal_links []).
  assert (Hnd : NoDup (map fst cc)).
  { apply count_connections_NoDup. constructor. }
  assert (Hget : forall w, count_get cc w = end_count causal_links w).
  { intros w. unfold cc. now rewrite count_connections_get. }
  destruct village_data as [| d rest]; cbn [List.length].
  - rewrite collect_sources_none.
    destruct (existsb _ cc) eqn:Hex.
    + split; [| reflexivity]. intros _. split; [reflexivity |].
      apply existsb_exists in Hex. destruct Hex as ([v c] & Hin & Hle).
      change (Nat.leb 2 c = true) in Hle. apply Nat.leb_le in Hle.
      exists v. now rewrite <- Hget, (@count_get_item cc _ _ Hnd Hin).
    + split; [discriminate |]. intros (_ & v & Hv). exfalso.
      assert (Htrue : existsb (fun item => Nat.leb 2 (snd item)) cc = true).
      { apply existsb_exists. exists (v, count_get cc v). split.
        - apply count_get_positive. rewrite Hget. lia.
        - change (Nat.leb 2 (count_get cc v) = true). apply Nat.leb_le. rewrite Hget. exact Hv. }
      congruence.
  - rewrite collect_sources_some.
    split; [discriminate | intros (H & _); discriminate H].
Qed.

Lemma X11_witness :
  _identify_hidden_sources self_link [] = ZeroDivisionError.
Proof.
  apply (proj1 (X11_hidden_sources_zero_division self_link [])).
  split; [reflexivity |]. exists "Rampur". cbn. lia.
Defined.

(** * Steps on a registry without agents *)

(** X12: on a registry without agents, a step that passes its checks
    records empty parallel results, and lets the run continue, only when it
    is parallel with the default selection.  Not parallel with the default
    selection it returns the outcome "No agent selected", which ends the
    run; with the max-belief or the proposer selection it raises, parallel
    or not, before any agent is looked at. *)
Theorem X12_step_on_empty_registry :
  forall (todo : list WorkflowStep) (step : WorkflowStep)
         (trigger_data : value) (sr : pydict),
    let self := mkWorkflow (Some empty_swarm) todo in
    let context := make_results trigger_data sr in
    condition_fails step context = Ok false ->
    dependencies_recorded step sr ->
    _execute_step self step context =
      (if selector_is step "max_outbreak_belief"
       then Raise (mkExn ValueError "max() arg is an empty sequence")
       else if selector_is step "proposer"
            then Raise (mkExn IndexError "list index out of range")
            else if parallel step
                 then Ok [("parallel_results", VDict [])]
                 else Ok [("error", VStr "No agent selected")]) /\
    (selector_is step "max_outbreak_belief" = false ->
     selector_is step "proposer" = false ->
     forall r, _execute_step self step context = Ok r ->
               _should_continue step r = parallel step).
Proof.
  intros todo step trigger_data sr self context Hc Hd.
  assert (E : _execute_step self step context =
              (if selector_is step "max_outbreak_belief"
               then Raise (mkExn ValueError "max() arg is an empty sequence")
               else if selector_is step "proposer"
                    then Raise (mkExn IndexError "list index out of range")
                    else if parallel step
                         then Ok [("parallel_results", VDict [])]
                         else Ok [("error", VStr "No agent selected")])).
  { unfold context. rewrite execute_step_runs_action by assumption.
    unfold run_action, _select_agents. cbn [orchestrator self agents
      empty_swarm].
    destruct (selector_is step "max_outbreak_belief"); [reflexivity |].
    destruct (selector_is step "proposer"); [reflexivity |].
    cbn [bind]. destruct (parallel step); reflexivity. }
  split; [exact E |].
  intros Hmax Hprop r Hr. rewrite E, Hmax, Hprop in Hr.
  destruct (parallel step); injection Hr as <-; reflexivity.
Qed.

Lemma X12_witness :
  _execute_step (mkWorkflow (Some empty_swarm) _define_steps) local_analysis
    (make_results sample_trigger []) =
  Ok [("parallel_results", VDict [])].
Proof.
  assert (Hd : dependencies_recorded local_analysis []).
  { intros deps H. discriminate H. }
  apply (proj1 (@X12_step_on_empty_registry _define_steps local_analysis
                  sample_trigger [] eq_refl Hd)).
Defined.
